(** * MELCloud control cycle: a shallow embedding of [main.py]

    One invocation of the script is one control cycle: it reads the outdoor
    temperature, polls the Telegram bot for directives, and walks over the
    air-to-air units deciding, for each one, whether a manual change has to
    be protected by a lockout and otherwise which policy rule applies.

    Modelling choices.
    - Python floats (temperatures, [time.time()]) are rationals [Q].  The
      script only compares them and adds the constant lockout duration to a
      timestamp, and those operations agree with their rational
      counterparts on the finite values the script handles.
    - Python dicts keyed by device name are [gmap string _].
    - Everything the script does to the outside world (log lines, calls
      of [enviar_telegram], device commands, calls that write files) is
      recorded, in program order, in a trace of [Event]s; an exception
      that escapes a call is the [Raised] result of the small
      trace-and-exception monad [M].  The answers of the outside world
      (weather, MELCloud, the poll, whether a command or a write fails)
      are the fields of [Entorno].
    - [mem] in the device loop is an alias of the dict stored in
      [estados_previos]: what the decision engine writes to [mem] after
      [estados_previos[dev.name] = mem] is visible in the store, which the
      embedding renders by storing the final [mem] again. *)

From Stdlib Require Import QArith Lqa ZArith String Ascii List Bool.
From stdpp Require Import gmap strings.
Import ListNotations.

Local Open Scope Q_scope.

(** ** Comparisons on numbers *)

(** [x < y] on floats, as a boolean. *)
Definition Qltb (x y : Q) : bool := negb (Qle_bool y x).

(** ** Configuration constants *)

Definition UMBRAL_SEGURIDAD_FRIO : Q := -2.
Definition UMBRAL_BUEN_TIEMPO_INVIERNO : Q := 19.
Definition UMBRAL_CORTE_VERANO : Q := 22.
Definition DURACION_BLOQUEO_MANUAL : Q := 3600.

Definition TEMP_OBJETIVOS : gmap string Q :=
  <["Salón"%string := 22.5]>
    (<["Dormitorio"%string := 21]>
       (<["Jimena"%string := 21]>
          (<["Elisa"%string := 21]> ∅))).
Definition DEFAULT_TEMP_AUTO : Q := 21.

(** ** Data model *)

(** A unit as the device library presents it after [update()].
    [set_raises] is the environment's answer to a [dev.set(...)] call on
    this unit during the cycle: [true] when the awaited call raises. *)
Record Device := {
  name : string;
  power : bool;
  target_temperature : Q;
  set_raises : bool
}.

(** An entry of [estados_previos]: the dict with keys ["power"],
    ["target_temperature"] and ["bloqueo_hasta"]. *)
Record Mem := {
  mem_power : bool;
  mem_target_temperature : Q;
  bloqueo_hasta : Q
}.

(** [registro] once [main] has filled in the two missing-key defaults. *)
Record Registro := {
  last_telegram_update_id : Z;
  stop_mode : bool
}.

(** What [load_json(LAST_ACTION_FILE, {})] returns: either key may be
    absent (both are when the file is missing or unreadable). *)
Record RegistroJson := {
  json_last_telegram_update_id : option Z;
  json_stop_mode : option bool
}.

(** One element of the ["result"] array of [getUpdates]; [text] is the
    empty string when the update carries no message text. *)
Record Update := {
  update_id : Z;
  text : string
}.

(** The outcome of the [getUpdates] request. *)
Inductive PollResult :=
| NoBotToken
| PollError
| PollNot200
| PollOk (results : list Update).

(** [datetime.now(TZ_SPAIN)] and [time.time()]. *)
Record Reloj := {
  hour : Z;
  minute : Z;
  month : Z;
  weekday : Z;
  ahora_ts : Q
}.

(** The argument of [dev.set]: each key is present or not. *)
Record SetProps := {
  set_power : option bool;
  set_target_temperature : option Q;
  set_operation_mode : option string
}.

(** ** Observable effects *)

(** The two files [save_json] is called on. *)
Inductive Archivo :=
| STATE_FILE
| LAST_ACTION_FILE.

Inductive LogLine :=
| LInicio
| LTempExterior (temp_ext : Q)
| LErrorClima
| LAvisoCaldera
| LErrorTelegram
| LDispositivo (n : string) (p : bool) (t obj : Q)
| LManualDetectado (n : string)
| LEnBloqueo (n : string)
| LAjustando (n : string) (obj : Q)
| LFin
| LFatalError
| LErrorGuardando (path : Archivo).

(** The texts handed to [enviar_telegram]. *)
Inductive Aviso :=
| AlertaCaldera
| BloqueosReseteados
| ModoStop
| ModoStart
| Estado (en_horario : bool) (stop : bool) (devs : list (string * bool * Q))
| CambioManual (n : string) (t : Q)
| Seguridad (n : string)
| Fresco (n : string)
| Stop (n : string)
| Noche (n : string)
| Apoyo (n : string) (obj : Q).

(** Each event is a call the script makes.  [EnviarTelegram] is the call
    [enviar_telegram(session, msg, temp_ext)]: whether a message is then
    posted depends on [BOT_TOKEN] and [CHAT_ID] being set and on the
    request (lines 78-87), which the trace does not record.  [SaveState]
    and [SaveRegistro] are the two [save_json] calls and
    [GuardarResumenCsv] the call [guardar_resumen_csv]; whether they
    manage to write is an answer of the environment (see [Escrituras]).
    The per-device flags of the history row are read from the library's
    device objects after the loop and are not part of the trace. *)
Inductive Event :=
| Log (l : LogLine)
| EnviarTelegram (a : Aviso) (temp : Q)
| GetUpdates (offset : Z)
| DevSet (n : string) (props : SetProps) (ok : bool)
| SaveState (estados : gmap string Mem)
| SaveRegistro (registro : Registro)
| GuardarResumenCsv (temp_ext : Q).

Definition is_command (e : Event) : bool :=
  match e with DevSet _ _ _ => true | _ => false end.

Definition is_notification (e : Event) : bool :=
  match e with EnviarTelegram _ _ => true | _ => false end.

Definition is_persist (e : Event) : bool :=
  match e with
  | SaveState _ | SaveRegistro _ | GuardarResumenCsv _ => true
  | _ => false
  end.

Definition commands (t : list Event) : list Event := List.filter is_command t.
Definition notifications (t : list Event) : list Event := List.filter is_notification t.
Definition persisted (t : list Event) : list Event := List.filter is_persist t.

(** ** Trace-and-exception monad *)

Inductive Res (A : Type) :=
| Ok (a : A)
| Raised.
Arguments Ok {A} a.
Arguments Raised {A}.

Definition M (A : Type) : Type := (list Event * Res A)%type.

Definition trace {A} (m : M A) : list Event := fst m.
Definition result {A} (m : M A) : Res A := snd m.

#[export] Instance M_ret : MRet M := fun A a => ([], Ok a).
#[export] Instance M_bind : MBind M := fun A B k m =>
  match m with
  | (t, Ok a) => let '(t', r) := k a in (t ++ t', r)
  | (t, Raised) => (t, Raised)
  end.

Definition emit (e : Event) : M unit := ([e], Ok tt).
Definition raise {A} : M A := ([], Raised).

(** ** Text of inbound messages *)

(** [str.lower()] on the ASCII letters; every other byte is kept.  The
    four directives are ASCII, which is the part of [lower] the command
    processor relies on. *)
Definition lower_ascii (c : ascii) : ascii :=
  let n := N_of_ascii c in
  if ((65 <=? n) && (n <=? 90))%N then ascii_of_N (n + 32) else c.

Fixpoint lower (s : string) : string :=
  match s with
  | EmptyString => EmptyString
  | String c s' => String (lower_ascii c) (lower s')
  end.

(** [pat in s] on Python strings: [pat] occurs somewhere in [s]. *)
Fixpoint str_in (pat s : string) : bool :=
  String.prefix pat s ||
  match s with
  | EmptyString => false
  | String _ s' => str_in pat s'
  end.

(** ** [check_telegram_commands] *)

Definition reset_bloqueo (m : Mem) : Mem :=
  {| mem_power := mem_power m;
     mem_target_temperature := mem_target_temperature m;
     bloqueo_hasta := 0 |}.

Definition set_stop_mode (b : bool) (r : Registro) : Registro :=
  {| last_telegram_update_id := last_telegram_update_id r; stop_mode := b |}.

Definition set_last_id (i : Z) (r : Registro) : Registro :=
  {| last_telegram_update_id := i; stop_mode := stop_mode r |}.

Definition linea_estado (d : Device) : string * bool * Q :=
  (name d, power d, target_temperature d).

Section Comandos.
Variables (temp_ext : Q) (devices : list Device) (en_horario : bool).

(** The body of the [for result in ...] loop. *)
Definition procesar_update (st : Registro * gmap string Mem) (u : Update)
  : M (Registro * gmap string Mem) :=
  let registro := set_last_id (update_id u) (fst st) in
  let estados_previos := snd st in
  let msg_text := lower (text u) in
  estados_previos ←
    (if str_in "/reset" msg_text then
       emit (EnviarTelegram BloqueosReseteados temp_ext);;
       mret (reset_bloqueo <$> estados_previos)
     else mret estados_previos);
  registro ←
    (if str_in "/stop" msg_text then
       emit (EnviarTelegram ModoStop temp_ext);;
       mret (set_stop_mode true registro)
     else mret registro);
  registro ←
    (if str_in "/start" msg_text then
       emit (EnviarTelegram ModoStart temp_ext);;
       mret (set_stop_mode false registro)
     else mret registro);
  (if str_in "/info" msg_text then
     emit (EnviarTelegram
             (Estado en_horario (stop_mode registro) (map linea_estado devices))
             temp_ext)
   else mret tt);;
  mret (registro, estados_previos).

Fixpoint procesar_updates (st : Registro * gmap string Mem) (us : list Update)
  : M (Registro * gmap string Mem) :=
  match us with
  | [] => mret st
  | u :: us' => st' ← procesar_update st u; procesar_updates st' us'
  end.

Definition check_telegram_commands (poll : PollResult)
    (registro : Registro) (estados_previos : gmap string Mem)
  : M (Registro * gmap string Mem) :=
  match poll with
  | NoBotToken => mret (registro, estados_previos)
  | PollError =>
      emit (GetUpdates (last_telegram_update_id registro + 1));;
      emit (Log LErrorTelegram);;
      mret (registro, estados_previos)
  | PollNot200 =>
      emit (GetUpdates (last_telegram_update_id registro + 1));;
      mret (registro, estados_previos)
  | PollOk results =>
      emit (GetUpdates (last_telegram_update_id registro + 1));;
      procesar_updates (registro, estados_previos) results
  end.
End Comandos.

(** ** The device loop of [main] *)

Definition mem_inicial (dev : Device) : Mem :=
  {| mem_power := power dev;
     mem_target_temperature := target_temperature dev;
     bloqueo_hasta := 0 |}.

(** [estados_previos.get(dev.name, {...})] *)
Definition recuperar (estados_previos : gmap string Mem) (dev : Device) : Mem :=
  default (mem_inicial dev) (estados_previos !! name dev).

(** [mem["power"] != dev.power or mem["target_temperature"] != dev.target_temperature] *)
Definition cambiado (mem : Mem) (dev : Device) : bool :=
  negb (Bool.eqb (mem_power mem) (power dev)) ||
  negb (Qeq_bool (mem_target_temperature mem) (target_temperature dev)).

Definition con_bloqueo (t : Q) (mem : Mem) : Mem :=
  {| mem_power := mem_power mem;
     mem_target_temperature := mem_target_temperature mem;
     bloqueo_hasta := t |}.

Definition con_power (p : bool) (mem : Mem) : Mem :=
  {| mem_power := p;
     mem_target_temperature := mem_target_temperature mem;
     bloqueo_hasta := bloqueo_hasta mem |}.

(** [mem["power"], mem["target_temperature"] = p, t] *)
Definition con_estado (p : bool) (t : Q) (mem : Mem) : Mem :=
  {| mem_power := p;
     mem_target_temperature := t;
     bloqueo_hasta := bloqueo_hasta mem |}.

Definition props_apagar : SetProps :=
  {| set_power := Some false;
     set_target_temperature := None;
     set_operation_mode := None |}.

Definition props_calentar (obj : Q) : SetProps :=
  {| set_power := Some true;
     set_target_temperature := Some obj;
     set_operation_mode := Some "heat"%string |}.

(** [await dev.set(props)] *)
Definition dev_set (dev : Device) (props : SetProps) : M unit :=
  if set_raises dev
  then emit (DevSet (name dev) props false);; raise
  else emit (DevSet (name dev) props true).

(** [TEMP_OBJETIVOS.get(dev.name, DEFAULT_TEMP_AUTO)] *)
Definition objetivo (dev : Device) : Q :=
  default DEFAULT_TEMP_AUTO (TEMP_OBJETIVOS !! name dev).

Section Ciclo.
Variables (ts temp_ext : Q) (es_invierno en_horario : bool) (registro : Registro).

(** Lines 163-167: the manual-change check. *)
Definition gestion_bloqueo_manual (dev : Device) (mem : Mem) : M Mem :=
  if cambiado mem dev then
    if Qltb (bloqueo_hasta mem) ts then
      emit (Log (LManualDetectado (name dev)));;
      emit (EnviarTelegram (CambioManual (name dev) (target_temperature dev)) temp_ext);;
      mret (con_bloqueo (ts + DURACION_BLOQUEO_MANUAL) mem)
    else mret mem
  else mret mem.

(** The four branches that switch a running unit off share this shape. *)
Definition apagar (dev : Device) (mem : Mem) (a : Aviso) : M (Mem * option Aviso) :=
  if power dev then
    dev_set dev props_apagar;;
    mret (con_power false mem, Some a)
  else mret (mem, None).

(** Lines 178-214: the decision engine for a unit that is not locked. *)
Definition motor_decision (dev : Device) (temp_objetivo_actual : Q) (mem : Mem) : M Mem :=
  '(mem, accion_tomada) ←
    (if Qltb temp_ext UMBRAL_SEGURIDAD_FRIO then
       apagar dev mem (Seguridad (name dev))
     else if negb es_invierno && Qltb temp_ext UMBRAL_CORTE_VERANO then
       apagar dev mem (Fresco (name dev))
     else if stop_mode registro then
       apagar dev mem (Stop (name dev))
     else if es_invierno then
       if negb en_horario then
         apagar dev mem (Noche (name dev))
       else if en_horario && Qle_bool temp_ext UMBRAL_BUEN_TIEMPO_INVIERNO then
         if negb (power dev)
            || negb (Qeq_bool (target_temperature dev) temp_objetivo_actual) then
           emit (Log (LAjustando (name dev) temp_objetivo_actual));;
           dev_set dev (props_calentar temp_objetivo_actual);;
           mret (con_estado true temp_objetivo_actual mem,
                 Some (Apoyo (name dev) temp_objetivo_actual))
         else mret (mem, None)
       else mret (mem, None)
     else mret (mem, None));
  match accion_tomada with
  | Some a => emit (EnviarTelegram a temp_ext)
  | None => mret tt
  end;;
  mret mem.

(** The [mem] that line 173 tests: after the manual-change check and the
    refresh of [power] and [target_temperature]. *)
Definition refrescar (dev : Device) (mem : Mem) : Mem :=
  con_estado (power dev) (target_temperature dev) mem.

(** [mem["bloqueo_hasta"] > ahora_ts] *)
Definition en_bloqueo (mem : Mem) : bool := Qltb ts (bloqueo_hasta mem).

(** One iteration of [for dev in devices]. *)
Definition procesar_dispositivo (estados_previos : gmap string Mem) (dev : Device)
  : M (gmap string Mem) :=
  let temp_objetivo_actual := objetivo dev in
  let mem := recuperar estados_previos dev in
  emit (Log (LDispositivo (name dev) (power dev) (target_temperature dev)
               temp_objetivo_actual));;
  mem ← gestion_bloqueo_manual dev mem;
  let mem := refrescar dev mem in
  let estados_previos := <[name dev := mem]> estados_previos in
  if en_bloqueo mem then
    emit (Log (LEnBloqueo (name dev)));;
    mret estados_previos
  else
    mem ← motor_decision dev temp_objetivo_actual mem;
    mret (<[name dev := mem]> estados_previos).

Fixpoint bucle_dispositivos (estados_previos : gmap string Mem) (devices : list Device)
  : M (gmap string Mem) :=
  match devices with
  | [] => mret estados_previos
  | dev :: rest =>
      estados_previos ← procesar_dispositivo estados_previos dev;
      bucle_dispositivos estados_previos rest
  end.
End Ciclo.

(** ** The end-of-cycle writes *)

(** The environment's answers to the three writes of lines 217-219:
    whether each [save_json] call fails inside its [try] (lines 68-73,
    the exception is logged and swallowed) and whether
    [guardar_resumen_csv], which has no handler, raises. *)
Record Escrituras := {
  save_state_falla : bool;
  save_registro_falla : bool;
  csv_raises : bool
}.

Definition escrituras_ok : Escrituras :=
  {| save_state_falla := false; save_registro_falla := false; csv_raises := false |}.

(** [save_json(STATE_FILE, estados_previos)] *)
Definition save_json_estados (falla : bool) (estados_previos : gmap string Mem) : M unit :=
  emit (SaveState estados_previos);;
  if falla then emit (Log (LErrorGuardando STATE_FILE)) else mret tt.

(** [save_json(LAST_ACTION_FILE, registro)] *)
Definition save_json_registro (falla : bool) (registro : Registro) : M unit :=
  emit (SaveRegistro registro);;
  if falla then emit (Log (LErrorGuardando LAST_ACTION_FILE)) else mret tt.

(** The call [guardar_resumen_csv(temp_ext, devices)] as [main] sees it. *)
Definition llamar_guardar_resumen_csv (raises : bool) (temp_ext : Q) : M unit :=
  emit (GuardarResumenCsv temp_ext);;
  if raises then raise else mret tt.

(** Lines 216-220. *)
Definition guardado_final (w : Escrituras) (estados_previos : gmap string Mem)
    (registro : Registro) (temp_ext : Q) : M unit :=
  save_json_estados (save_state_falla w) estados_previos;;
  save_json_registro (save_registro_falla w) registro;;
  llamar_guardar_resumen_csv (csv_raises w) temp_ext;;
  emit (Log LFin).

(** ** [main] and [run_safe] *)

(** Everything one cycle reads from outside. [clima] is [None] when the
    weather request raises or its JSON lacks a numeric current
    temperature; [melcloud] is [None] when login, listing or refreshing
    the units raises; [escrituras] says how the final writes fare. *)
Record Entorno := {
  registro_json : RegistroJson;
  estados_json : gmap string Mem;
  reloj : Reloj;
  clima : option Q;
  melcloud : option (list Device);
  telegram : PollResult;
  escrituras : Escrituras
}.

Definition registro_inicial (j : RegistroJson) : Registro :=
  {| last_telegram_update_id := default 0%Z (json_last_telegram_update_id j);
     stop_mode := default false (json_stop_mode j) |}.

Definition minutos (r : Reloj) : Z := (hour r * 60 + minute r)%Z.
Definition es_invierno_de (r : Reloj) : bool := ((10 <=? month r) || (month r <=? 5))%Z.
Definition en_horario_de (r : Reloj) : bool :=
  ((390 <=? minutos r) && (minutos r <? 1380))%Z.

Definition main (e : Entorno) : M unit :=
  emit (Log LInicio);;
  let registro := registro_inicial (registro_json e) in
  let estados_previos := estados_json e in
  let es_invierno := es_invierno_de (reloj e) in
  let en_horario := en_horario_de (reloj e) in
  match clima e with
  | None => emit (Log LErrorClima)
  | Some temp_ext =>
      emit (Log (LTempExterior temp_ext));;
      (if es_invierno && Qle_bool temp_ext 1 then
         emit (Log LAvisoCaldera);;
         emit (EnviarTelegram AlertaCaldera temp_ext)
       else mret tt);;
      devices ← (match melcloud e with Some ds => mret ds | None => raise end);
      '(registro, estados_previos) ←
        check_telegram_commands temp_ext devices en_horario (telegram e)
          registro estados_previos;
      estados_previos ←
        bucle_dispositivos (ahora_ts (reloj e)) temp_ext es_invierno en_horario registro
          estados_previos devices;
      guardado_final (escrituras e) estados_previos registro temp_ext
  end.

(** [run_safe]: the trace of the whole process. *)
Definition run_safe (e : Entorno) : list Event :=
  match main e with
  | (t, Ok _) => t
  | (t, Raised) => t ++ [Log LFatalError]
  end.

(** ** Derived notions used to state the properties *)

(** The manual-change check fires: the observed state differs from the
    memory and [ahora_ts > mem["bloqueo_hasta"]]. *)
Definition manual_detectado (ts : Q) (mem : Mem) (dev : Device) : bool :=
  cambiado mem dev && Qltb (bloqueo_hasta mem) ts.

(** The value of [mem] when control reaches line 173. *)
Definition mem_en_decision (ts : Q) (estados_previos : gmap string Mem) (dev : Device) : Mem :=
  let mem := recuperar estados_previos dev in
  refrescar dev
    (if manual_detectado ts mem dev
     then con_bloqueo (ts + DURACION_BLOQUEO_MANUAL) mem
     else mem).

(** Some polled message carries the reset directive. *)
Definition reset_recibido (poll : PollResult) : bool :=
  match poll with
  | PollOk results => existsb (fun u => str_in "/reset" (lower (text u))) results
  | _ => false
  end.

(** What a switch-off branch of the decision engine amounts to, call by
    call: nothing for a unit that is off; otherwise the command, and on
    its success the memory update and the notification. *)
Definition efecto_apagar (temp_ext : Q) (dev : Device) (mem : Mem) (a : Aviso) : M Mem :=
  if power dev then
    if set_raises dev then ([DevSet (name dev) props_apagar false], Raised)
    else ([DevSet (name dev) props_apagar true; EnviarTelegram a temp_ext],
          Ok (con_power false mem))
  else ([], Ok mem).

(** The same for the heating branch. *)
Definition efecto_calentar (temp_ext : Q) (dev : Device) (obj : Q) (mem : Mem) : M Mem :=
  if set_raises dev then
    ([Log (LAjustando (name dev) obj); DevSet (name dev) (props_calentar obj) false],
     Raised)
  else
    ([Log (LAjustando (name dev) obj); DevSet (name dev) (props_calentar obj) true;
      EnviarTelegram (Apoyo (name dev) obj) temp_ext],
     Ok (con_estado true obj mem)).

Definition failed_set (e : Event) : bool :=
  match e with DevSet _ _ false => true | _ => false end.

(** An event that is neither a failed device command nor a write. *)
Definition limpio (e : Event) : Prop :=
  failed_set e = false /\ is_persist e = false.

(** An event that is neither a device command nor a write. *)
Definition callado (e : Event) : Prop :=
  is_command e = false /\ is_persist e = false.

(** The shape of every computation of the device loop: it either returns
    after a trace without failed commands and without writes, or it
    raises right after the first failed command. *)
Definition traza_ok {A} (m : M A) : Prop :=
  match result m with
  | Ok _ => Forall limpio (trace m)
  | Raised => exists t n p, trace m = t ++ [DevSet n p false] /\ Forall limpio t
  end.

(** ** Further notions: the command processor as a fold *)

(** What one polled message does to [registro]: the cursor takes the
    message's id; [/stop] then [/start] are applied in that order. *)
Definition registro_tras_update (reg : Registro) (u : Update) : Registro :=
  let t := lower (text u) in
  {| last_telegram_update_id := update_id u;
     stop_mode := if str_in "/start" t then false
                  else if str_in "/stop" t then true else stop_mode reg |}.

(** The message carries at least one of the four directives. *)
Definition tiene_directiva (u : Update) : bool :=
  let t := lower (text u) in
  str_in "/reset" t || str_in "/stop" t || str_in "/start" t || str_in "/info" t.

(** [registro] after the command processor, whatever the poll gave. *)
Definition registro_tras_poll (poll : PollResult) (reg : Registro) : Registro :=
  match poll with
  | PollOk results => foldl registro_tras_update reg results
  | _ => reg
  end.

(** ** [guardar_resumen_csv] *)

Definition salto : string := String "010"%char EmptyString.

Definition CABECERA_CSV : string :=
  "fecha,temp_ext,salon_on,dorm_on,jimena_on,elisa_on" +:+ salto.

(** [{d.name: (1 if d.power else 0) for d in devices}]: a later unit with
    the same name overwrites an earlier one. *)
Definition estados_csv (devices : list Device) : gmap string Z :=
  foldl (fun m d => <[name d := if power d then 1%Z else 0%Z]> m) ∅ devices.

(** The text of one of the two values a flag can take. *)
Definition texto_flag (z : Z) : string := if (z =? 0)%Z then "0" else "1".

(** [estados.get(n, 0)] as it appears in the row. *)
Definition columna (devices : list Device) (n : string) : string :=
  texto_flag (default 0%Z (estados_csv devices !! n)).

(** The row.  [fecha] is the formatted timestamp and [temp] the text of
    [temp_ext]; both come from library formatting. *)
Definition linea_csv (fecha temp : string) (devices : list Device) : string :=
  fecha +:+ "," +:+ temp +:+ "," +:+
  columna devices "Salón" +:+ "," +:+ columna devices "Dormitorio" +:+ "," +:+
  columna devices "Jimena" +:+ "," +:+ columna devices "Elisa" +:+ salto.

(** The file after the call; [None] is a file that does not exist. *)
Definition guardar_resumen_csv (archivo : option string) (fecha temp : string)
    (devices : list Device) : string :=
  match archivo with
  | None => CABECERA_CSV +:+ linea_csv fecha temp devices
  | Some previo => previo +:+ linea_csv fecha temp devices
  end.

(** Number of occurrences of a character. *)
Fixpoint cuenta (c : ascii) (s : string) : nat :=
  match s with
  | EmptyString => 0
  | String d s' => (if Ascii.eqb c d then 1 else 0) + cuenta c s'
  end.

(** ** Further notions: the parts of a cycle *)

(** Lines 144-146: the boiler warning. *)
Definition aviso_caldera (inv : bool) (temp_ext : Q) : list Event :=
  if inv && Qle_bool temp_ext 1
  then [Log LAvisoCaldera; EnviarTelegram AlertaCaldera temp_ext]
  else [].

(** [registro] and the store as the device loop receives them. *)
Definition registro_del_ciclo (e : Entorno) : Registro :=
  registro_tras_poll (telegram e) (registro_inicial (registro_json e)).

Definition estados_del_ciclo (e : Entorno) : gmap string Mem :=
  if reset_recibido (telegram e)
  then reset_bloqueo <$> estados_json e else estados_json e.

(** The device loop of the cycle, for a given temperature and list. *)
Definition bucle_del_ciclo (e : Entorno) (temp_ext : Q) (devices : list Device)
  : M (gmap string Mem) :=
  bucle_dispositivos (ahora_ts (reloj e)) temp_ext
    (es_invierno_de (reloj e)) (en_horario_de (reloj e))
    (registro_del_ciclo e) (estados_del_ciclo e) devices.

(** Successive calls of [guardar_resumen_csv] on the same file, one per
    cycle, each with its timestamp, temperature text and unit list. *)
Definition guardar_varias (archivo : option string)
    (llamadas : list (string * string * list Device)) : option string :=
  foldl (fun a c => Some (guardar_resumen_csv a (c.1.1) (c.1.2) (c.2))) archivo llamadas.

(** The rows of those calls, one after the other. *)
Fixpoint lineas_csv (llamadas : list (string * string * list Device)) : string :=
  match llamadas with
  | [] => EmptyString
  | c :: resto => linea_csv (c.1.1) (c.1.2) (c.2) +:+ lineas_csv resto
  end.


(** The events of [guardado_final], call by call. *)
Definition cola_guardado (w : Escrituras) (estados_previos : gmap string Mem)
    (registro : Registro) (temp_ext : Q) : list Event :=
  [SaveState estados_previos]
    ++ (if save_state_falla w then [Log (LErrorGuardando STATE_FILE)] else [])
    ++ [SaveRegistro registro]
    ++ (if save_registro_falla w then [Log (LErrorGuardando LAST_ACTION_FILE)] else [])
    ++ [GuardarResumenCsv temp_ext]
    ++ (if csv_raises w then [] else [Log LFin]).

(** ** Further notions: detections and commanded units *)





(** The units the [dev.set] calls of a trace are addressed to, call by
    call. *)
Definition unidades_comandadas (t : list Event) : list string :=
  flat_map (fun ev => match ev with DevSet n _ _ => [n] | _ => [] end) t.

(** * Properties *)

(** ** Numbers *)

Lemma Qltb_lt (x y : Q) : Qltb x y = true <-> x < y.
Proof.
  unfold Qltb. rewrite negb_true_iff, <- not_true_iff_false, Qle_bool_iff.
  split; [apply Qnot_le_lt | apply Qlt_not_le].
Qed.

Lemma Qltb_ge (x y : Q) : Qltb x y = false <-> y <= x.
Proof.
  unfold Qltb. rewrite negb_false_iff. apply Qle_bool_iff.
Qed.

Lemma Qeq_bool_same (x : Q) : Qeq_bool x x = true.
Proof. apply Qeq_bool_iff. reflexivity. Qed.

(** ** The monad *)

Lemma bind_emit {B} (e : Event) (k : unit -> M B) :
  emit e ≫= k = (e :: trace (k tt), result (k tt)).
Proof. unfold mbind, M_bind, emit. destruct (k tt); reflexivity. Qed.

Lemma bind_ret {A B} (a : A) (k : A -> M B) : mret a ≫= k = k a.
Proof. unfold mbind, M_bind, mret, M_ret. destruct (k a); reflexivity. Qed.

Lemma bind_pair_ok {A B} (t : list Event) (a : A) (k : A -> M B) :
  ((t, Ok a) : M A) ≫= k = (t ++ trace (k a), result (k a)).
Proof. unfold mbind, M_bind. destruct (k a); reflexivity. Qed.

Lemma M_eta {A} (m : M A) : m = (trace m, result m).
Proof. destruct m; reflexivity. Qed.

(** ** The manual-change check *)

Lemma cambiado_refrescar (dev : Device) (mem : Mem) :
  cambiado (refrescar dev mem) dev = false.
Proof.
  unfold cambiado, refrescar, con_estado; simpl.
  rewrite Qeq_bool_same. destruct (power dev); reflexivity.
Qed.

Lemma gestion_bloqueo_manual_eq ts temp_ext dev mem :
  gestion_bloqueo_manual ts temp_ext dev mem =
  if manual_detectado ts mem dev then
    ([Log (LManualDetectado (name dev));
      EnviarTelegram (CambioManual (name dev) (target_temperature dev)) temp_ext],
     Ok (con_bloqueo (ts + DURACION_BLOQUEO_MANUAL) mem))
  else ([], Ok mem).
Proof.
  unfold gestion_bloqueo_manual, manual_detectado.
  destruct (cambiado mem dev); simpl; [|reflexivity].
  destruct (Qltb (bloqueo_hasta mem) ts); reflexivity.
Qed.

(** ** One iteration of the device loop *)

Lemma procesar_dispositivo_eq ts temp_ext inv hor reg (estados : gmap string Mem) dev :
  procesar_dispositivo ts temp_ext inv hor reg estados dev =
  let mem0 := recuperar estados dev in
  let mem := mem_en_decision ts estados dev in
  let cabecera :=
    Log (LDispositivo (name dev) (power dev) (target_temperature dev) (objetivo dev))
    :: (if manual_detectado ts mem0 dev then
          [Log (LManualDetectado (name dev));
           EnviarTelegram (CambioManual (name dev) (target_temperature dev)) temp_ext]
        else []) in
  if en_bloqueo ts mem then
    (cabecera ++ [Log (LEnBloqueo (name dev))], Ok (<[name dev := mem]> estados))
  else
    let d := motor_decision temp_ext inv hor reg dev (objetivo dev) mem in
    (cabecera ++ trace d,
     match result d with
     | Ok mem' => Ok (<[name dev := mem']> estados)
     | Raised => Raised
     end).
Proof.
  unfold procesar_dispositivo, mem_en_decision.
  rewrite bind_emit, gestion_bloqueo_manual_eq.
  destruct (manual_detectado ts (recuperar estados dev) dev);
    rewrite bind_pair_ok; cbv zeta;
    match goal with |- context [en_bloqueo ts ?m] =>
      generalize m; intros mem; destruct (en_bloqueo ts mem) end.
  all: rewrite ?bind_emit; unfold mret at 1, M_ret at 1; cbn [trace result fst snd app].
  all: try reflexivity.
  all: destruct (motor_decision temp_ext inv hor reg dev (objetivo dev) mem) as [t [m'|]].
  all: unfold mbind, M_bind, mret, M_ret; cbn [trace result fst snd app].
  all: rewrite ?app_nil_r, ?insert_insert_eq; reflexivity.
Qed.

(** ** The decision engine as a table *)

Lemma motor_decision_eq temp_ext inv hor reg dev obj mem :
  motor_decision temp_ext inv hor reg dev obj mem =
  if Qltb temp_ext UMBRAL_SEGURIDAD_FRIO then
    efecto_apagar temp_ext dev mem (Seguridad (name dev))
  else if negb inv && Qltb temp_ext UMBRAL_CORTE_VERANO then
    efecto_apagar temp_ext dev mem (Fresco (name dev))
  else if stop_mode reg then
    efecto_apagar temp_ext dev mem (Stop (name dev))
  else if inv then
    if negb hor then efecto_apagar temp_ext dev mem (Noche (name dev))
    else if Qle_bool temp_ext UMBRAL_BUEN_TIEMPO_INVIERNO then
      if negb (power dev) || negb (Qeq_bool (target_temperature dev) obj)
      then efecto_calentar temp_ext dev obj mem
      else ([], Ok mem)
    else ([], Ok mem)
  else ([], Ok mem).
Proof.
  unfold motor_decision, apagar, dev_set, efecto_apagar, efecto_calentar.
  destruct (Qltb temp_ext UMBRAL_SEGURIDAD_FRIO), inv, hor,
    (Qltb temp_ext UMBRAL_CORTE_VERANO), (stop_mode reg),
    (Qle_bool temp_ext UMBRAL_BUEN_TIEMPO_INVIERNO), (power dev),
    (Qeq_bool (target_temperature dev) obj), (set_raises dev);
    reflexivity.
Qed.

(** ** Lockout and the decision engine *)

(** Arming a lockout at [ts] locks the unit at [ts]: a step that is not
    locked at line 173 has not detected a manual change. *)
Lemma sin_bloqueo_sin_manual ts (estados : gmap string Mem) dev :
  en_bloqueo ts (mem_en_decision ts estados dev) = false ->
  manual_detectado ts (recuperar estados dev) dev = false.
Proof.
  unfold mem_en_decision, en_bloqueo.
  destruct (manual_detectado ts (recuperar estados dev) dev); [|reflexivity].
  simpl. intros H. apply Qltb_ge in H.
  unfold DURACION_BLOQUEO_MANUAL in H. lra.
Qed.

Lemma bloqueo_mem_en_decision ts (estados : gmap string Mem) dev :
  bloqueo_hasta (mem_en_decision ts estados dev) =
  if manual_detectado ts (recuperar estados dev) dev
  then ts + DURACION_BLOQUEO_MANUAL
  else bloqueo_hasta (recuperar estados dev).
Proof.
  unfold mem_en_decision.
  destruct (manual_detectado ts (recuperar estados dev) dev); reflexivity.
Qed.

(** A step that passes the lockout test is the log line followed by the
    decision engine run on the refreshed memory. *)
Lemma procesar_dispositivo_libre ts temp_ext inv hor reg (estados : gmap string Mem) dev :
  en_bloqueo ts (mem_en_decision ts estados dev) = false ->
  procesar_dispositivo ts temp_ext inv hor reg estados dev =
  let d := motor_decision temp_ext inv hor reg dev (objetivo dev)
             (mem_en_decision ts estados dev) in
  (Log (LDispositivo (name dev) (power dev) (target_temperature dev) (objetivo dev))
     :: trace d,
   match result d with
   | Ok mem' => Ok (<[name dev := mem']> estados)
   | Raised => Raised
   end).
Proof.
  intros H. rewrite procesar_dispositivo_eq. cbv zeta.
  rewrite H, (sin_bloqueo_sin_manual _ _ _ H). reflexivity.
Qed.

(** C1, as stated, fails on the boundary: with [now] equal to
    [bloqueo_hasta] the test [bloqueo_hasta > now] of line 173 is false,
    the decision engine runs and, here, switches the unit off. *)
Lemma lockout_boundary_counterexample :
  let dev := {| name := "Salón"; power := true; target_temperature := 20;
                set_raises := false |} in
  let estados : gmap string Mem :=
    {[ "Salón"%string := {| mem_power := true; mem_target_temperature := 20;
                            bloqueo_hasta := 1000 |} ]} in
  let reg := {| last_telegram_update_id := 0; stop_mode := false |} in
  1000 <= bloqueo_hasta (recuperar estados dev) /\
  1000 <= bloqueo_hasta (mem_en_decision 1000 estados dev) /\
  commands (trace (procesar_dispositivo 1000 (-3) true true reg estados dev)) =
    [DevSet "Salón" props_apagar true].
Proof.
  split; [vm_compute; discriminate|].
  split; [vm_compute; discriminate | vm_compute; reflexivity].
Qed.

(** C1 (amended to the strict comparison the code makes): a unit whose
    memory satisfies [now < bloqueo_hasta], be it the memory found in the
    store or the memory when control reaches the lockout test of line 173
    (after the manual-change check, which may just have armed the
    lockout), receives no device command in this iteration, whatever the
    outdoor temperature, season, active-hours flag and stop mode; the
    iteration ends with the refreshed memory stored. *)
Theorem lockout_suppresses_automation ts temp_ext inv hor reg
    (estados : gmap string Mem) dev :
  ts < bloqueo_hasta (recuperar estados dev) \/
  ts < bloqueo_hasta (mem_en_decision ts estados dev) ->
  commands (trace (procesar_dispositivo ts temp_ext inv hor reg estados dev)) = [] /\
  result (procesar_dispositivo ts temp_ext inv hor reg estados dev) =
    Ok (<[name dev := mem_en_decision ts estados dev]> estados).
Proof.
  intros H.
  assert (Hlock : en_bloqueo ts (mem_en_decision ts estados dev) = true).
  { apply Qltb_lt. destruct H as [H|H]; [|exact H].
    rewrite bloqueo_mem_en_decision.
    destruct (manual_detectado ts (recuperar estados dev) dev); [|exact H].
    unfold DURACION_BLOQUEO_MANUAL. lra. }
  rewrite procesar_dispositivo_eq. cbv zeta. rewrite Hlock.
  split; [|reflexivity].
  destruct (manual_detectado ts (recuperar estados dev) dev); reflexivity.
Qed.

Lemma lockout_suppresses_automation_witness :
  let dev := {| name := "Salón"; power := true; target_temperature := 20;
                set_raises := false |} in
  let estados : gmap string Mem :=
    {[ "Salón"%string := {| mem_power := true; mem_target_temperature := 20;
                            bloqueo_hasta := 1500 |} ]} in
  let reg := {| last_telegram_update_id := 0; stop_mode := false |} in
  1000 < bloqueo_hasta (recuperar estados dev) /\
  commands (trace (procesar_dispositivo 1000 (-3) true true reg estados dev)) = [] /\
  result (procesar_dispositivo 1000 (-3) true true reg estados dev) =
    Ok (<[name dev := mem_en_decision 1000 estados dev]> estados).
Proof.
  intros dev estados reg.
  assert (H : 1000 < bloqueo_hasta (recuperar estados dev)) by (vm_compute; reflexivity).
  split; [exact H|].
  apply (lockout_suppresses_automation 1000 (-3) true true reg estados dev).
  left. exact H.
Defined.

(** ** Safety cutoff *)

(** C3, as stated, fails for a unit that is already off: below the safety
    threshold and not locked out, line 181 guards the command with
    [if dev.power], and no command is issued. *)
Lemma safety_unit_off_counterexample :
  let dev := {| name := "Dormitorio"; power := false; target_temperature := 20;
                set_raises := false |} in
  let reg := {| last_telegram_update_id := 0; stop_mode := false |} in
  -3 < UMBRAL_SEGURIDAD_FRIO /\
  en_bloqueo 1000 (mem_en_decision 1000 ∅ dev) = false /\
  commands (trace (procesar_dispositivo 1000 (-3) true true reg ∅ dev)) = [].
Proof. repeat split; vm_compute; reflexivity. Qed.

(** C3 (amended): for any season, active-hours flag, stop mode and unit
    state, if the outdoor temperature is below the safety threshold and
    the unit is not locked out at line 173, then the only command the
    iteration issues is the switch-off of a unit observed on (after which
    its memory records [power = False] and the safety notification is
    sent), and a unit observed off receives no command and no
    notification; no other rule acts. *)
Theorem safety_precedence ts temp_ext inv hor reg (estados : gmap string Mem) dev :
  temp_ext < UMBRAL_SEGURIDAD_FRIO ->
  en_bloqueo ts (mem_en_decision ts estados dev) = false ->
  let p := procesar_dispositivo ts temp_ext inv hor reg estados dev in
  commands (trace p) =
    (if power dev then [DevSet (name dev) props_apagar (negb (set_raises dev))] else []) /\
  (power dev = true -> set_raises dev = false ->
     notifications (trace p) = [EnviarTelegram (Seguridad (name dev)) temp_ext] /\
     result p = Ok (<[name dev := con_power false (mem_en_decision ts estados dev)]> estados)) /\
  (power dev = false ->
     notifications (trace p) = [] /\
     result p = Ok (<[name dev := mem_en_decision ts estados dev]> estados)).
Proof.
  intros Hfrio Hlibre p. subst p.
  rewrite (procesar_dispositivo_libre _ _ _ _ _ _ _ Hlibre). cbv zeta.
  rewrite motor_decision_eq.
  apply Qltb_lt in Hfrio. rewrite Hfrio. unfold efecto_apagar.
  destruct (power dev), (set_raises dev); simpl;
    repeat split; intros; try reflexivity; discriminate.
Qed.

Lemma safety_precedence_witness :
  let dev := {| name := "Salón"; power := true; target_temperature := 20;
                set_raises := false |} in
  let reg := {| last_telegram_update_id := 0; stop_mode := false |} in
  -3 < UMBRAL_SEGURIDAD_FRIO /\
  en_bloqueo 1000 (mem_en_decision 1000 ∅ dev) = false /\
  commands (trace (procesar_dispositivo 1000 (-3) true true reg ∅ dev)) =
    [DevSet "Salón" props_apagar true].
Proof.
  intros dev reg.
  assert (Hf : -3 < UMBRAL_SEGURIDAD_FRIO) by (vm_compute; reflexivity).
  assert (Hl : en_bloqueo 1000 (mem_en_decision 1000 ∅ dev) = false)
    by (vm_compute; reflexivity).
  split; [exact Hf|]. split; [exact Hl|].
  exact (proj1 (safety_precedence 1000 (-3) true true reg ∅ dev Hf Hl)).
Defined.

(** ** Winter comfort rule *)

(** C6: in winter, inside active hours, with stop mode off and the outdoor
    temperature at or below the winter-comfort threshold (and not below
    the safety threshold, so that the comfort rule is the one evaluated),
    a unit that is not locked out, is on and whose observed target equals
    its objective gets no command and no notification, and its refreshed
    memory is stored unchanged. *)
Theorem comfort_rule_idempotent ts temp_ext reg (estados : gmap string Mem) dev :
  stop_mode reg = false ->
  UMBRAL_SEGURIDAD_FRIO <= temp_ext ->
  temp_ext <= UMBRAL_BUEN_TIEMPO_INVIERNO ->
  en_bloqueo ts (mem_en_decision ts estados dev) = false ->
  power dev = true ->
  target_temperature dev == objetivo dev ->
  let p := procesar_dispositivo ts temp_ext true true reg estados dev in
  commands (trace p) = [] /\
  notifications (trace p) = [] /\
  result p = Ok (<[name dev := mem_en_decision ts estados dev]> estados).
Proof.
  intros Hstop Hseg Hbuen Hlibre Hon Hobj p. subst p.
  rewrite (procesar_dispositivo_libre _ _ _ _ _ _ _ Hlibre). cbv zeta.
  rewrite motor_decision_eq.
  apply Qltb_ge in Hseg. apply Qle_bool_iff in Hbuen. apply Qeq_bool_iff in Hobj.
  rewrite Hseg, Hstop, Hbuen, Hon, Hobj. simpl. auto.
Qed.

Lemma comfort_rule_idempotent_witness :
  let dev := {| name := "Salón"; power := true; target_temperature := 22.5;
                set_raises := false |} in
  let reg := {| last_telegram_update_id := 0; stop_mode := false |} in
  let p := procesar_dispositivo 1000 10 true true reg ∅ dev in
  commands (trace p) = [] /\ notifications (trace p) = [] /\
  result p = Ok (<[name dev := mem_en_decision 1000 ∅ dev]> ∅).
Proof.
  intros dev reg.
  apply (comfort_rule_idempotent 1000 10 reg ∅ dev).
  - reflexivity.
  - vm_compute; discriminate.
  - vm_compute; discriminate.
  - vm_compute; reflexivity.
  - reflexivity.
  - vm_compute; reflexivity.
Defined.

(** ** First cycle of a unit *)

(** C10: for a unit with no entry in the store, the memory is built from
    the observed power and target with [bloqueo_hasta = 0]; the manual
    check neither fires nor arms a lockout, the lockout test fails (for a
    clock at or after the epoch), and the iteration is the decision
    engine run on that default memory. *)
Theorem first_cycle_no_lockout ts temp_ext inv hor reg (estados : gmap string Mem) dev :
  estados !! name dev = None ->
  0 <= ts ->
  recuperar estados dev = mem_inicial dev /\
  gestion_bloqueo_manual ts temp_ext dev (recuperar estados dev) = mret (mem_inicial dev) /\
  mem_en_decision ts estados dev = mem_inicial dev /\
  en_bloqueo ts (mem_en_decision ts estados dev) = false /\
  procesar_dispositivo ts temp_ext inv hor reg estados dev =
    (emit (Log (LDispositivo (name dev) (power dev) (target_temperature dev)
                 (objetivo dev)));;
     mem ← motor_decision temp_ext inv hor reg dev (objetivo dev) (mem_inicial dev);
     mret (<[name dev := mem]> estados)).
Proof.
  intros Hnone Hts.
  assert (Hrec : recuperar estados dev = mem_inicial dev)
    by (unfold recuperar; rewrite Hnone; reflexivity).
  assert (Hcamb : cambiado (mem_inicial dev) dev = false)
    by (apply (cambiado_refrescar dev (mem_inicial dev))).
  assert (Hman : manual_detectado ts (mem_inicial dev) dev = false)
    by (unfold manual_detectado; rewrite Hcamb; reflexivity).
  assert (Hmem : mem_en_decision ts estados dev = mem_inicial dev)
    by (unfold mem_en_decision; rewrite Hrec, Hman; reflexivity).
  assert (Hlibre : en_bloqueo ts (mem_en_decision ts estados dev) = false)
    by (rewrite Hmem; apply Qltb_ge; exact Hts).
  repeat split; try assumption.
  - rewrite Hrec, gestion_bloqueo_manual_eq, Hman. reflexivity.
  - rewrite (procesar_dispositivo_libre _ _ _ _ _ _ _ Hlibre). cbv zeta.
    rewrite Hmem, bind_emit. f_equal.
    + destruct (motor_decision temp_ext inv hor reg dev (objetivo dev) (mem_inicial dev))
        as [t [m|]]; unfold mbind, M_bind, mret, M_ret; simpl;
        rewrite ?app_nil_r; reflexivity.
    + destruct (motor_decision temp_ext inv hor reg dev (objetivo dev) (mem_inicial dev))
        as [t [m|]]; reflexivity.
Qed.

Lemma first_cycle_no_lockout_witness :
  let dev := {| name := "Dormitorio"; power := false; target_temperature := 20;
                set_raises := false |} in
  let reg := {| last_telegram_update_id := 0; stop_mode := false |} in
  en_bloqueo 1700000000 (mem_en_decision 1700000000 ∅ dev) = false /\
  gestion_bloqueo_manual 1700000000 18 dev (recuperar ∅ dev) = mret (mem_inicial dev).
Proof.
  intros dev reg.
  assert (H0 : (∅ : gmap string Mem) !! name dev = None) by reflexivity.
  assert (H1 : 0 <= 1700000000) by (vm_compute; discriminate).
  pose proof (first_cycle_no_lockout 1700000000 18 true true reg ∅ dev H0 H1)
    as (_ & Hg & _ & Hl & _).
  split; [exact Hl | exact Hg].
Defined.

(** ** Edge-triggered override *)

Lemma recuperar_insert (estados : gmap string Mem) dev mem :
  recuperar (<[name dev := mem]> estados) dev = mem.
Proof. unfold recuperar. rewrite lookup_insert_eq. reflexivity. Qed.







(** ** Weather failure *)

(** C7: when the weather request fails or its answer is malformed, the
    whole process logs the start of the cycle and the weather error and
    does nothing else: no device command, no Telegram call, and none of
    the three writes (memory store, registry, history row). *)
Theorem weather_failure_aborts e :
  clima e = None ->
  run_safe e = [Log LInicio; Log LErrorClima] /\
  commands (run_safe e) = [] /\
  persisted (run_safe e) = [] /\
  notifications (run_safe e) = [].
Proof.
  intros H. unfold run_safe, main. rewrite H, bind_emit. simpl. auto.
Qed.

Lemma weather_failure_aborts_witness :
  let e := {| registro_json := {| json_last_telegram_update_id := Some 7%Z;
                                  json_stop_mode := Some false |};
              estados_json := ∅;
              reloj := {| hour := 10; minute := 0; month := 1; weekday := 2;
                          ahora_ts := 1700000000 |};
              clima := None;
              melcloud := Some [ {| name := "Salón"; power := true;
                                    target_temperature := 20; set_raises := false |} ];
              telegram := PollOk [ {| update_id := 8; text := "/stop" |} ];
              escrituras := escrituras_ok |} in
  run_safe e = [Log LInicio; Log LErrorClima] /\ persisted (run_safe e) = [].
Proof.
  intros e.
  destruct (weather_failure_aborts e eq_refl) as (H1 & _ & H2 & _).
  split; assumption.
Defined.

(** ** Recognition of directives *)

Lemma append_String (c : ascii) (a b : string) :
  String c a +:+ b = String c (a +:+ b).
Proof. reflexivity. Qed.

Lemma prefix_iff (p s : string) :
  String.prefix p s = true <-> exists post, s = p +:+ post.
Proof.
  revert s. induction p as [|c p IH]; intros s.
  - split; [intros _; exists s; reflexivity | intros _; destruct s; reflexivity].
  - destruct s as [|d s]; cbn [String.prefix].
    + split; [discriminate | intros [post H]; discriminate].
    + destruct (ascii_dec c d) as [->|Hne].
      * rewrite IH. split; intros [post H]; exists post.
        -- rewrite H; reflexivity.
        -- rewrite append_String in H. congruence.
      * split; [discriminate|].
        intros [post H]. rewrite append_String in H. congruence.
Qed.

(** [str_in] is substring containment. *)
Lemma str_in_iff (pat s : string) :
  str_in pat s = true <-> exists pre post, s = pre +:+ pat +:+ post.
Proof.
  induction s as [|c s IH]; cbn [str_in]; rewrite orb_true_iff, prefix_iff.
  - split.
    + intros [[post H]|H]; [|discriminate]. exists EmptyString, post. exact H.
    + intros (pre & post & H). left. destruct pre; [exists post; exact H|discriminate].
  - rewrite IH. split.
    + intros [[post H]|(pre & post & H)].
      * exists EmptyString, post. exact H.
      * exists (String c pre), post. rewrite append_String, H. reflexivity.
    + intros (pre & post & H). destruct pre as [|d pre].
      * left. exists post. exact H.
      * right. exists pre, post. rewrite append_String in H. congruence.
Qed.

Lemma lower_app (a b : string) : lower (a +:+ b) = lower a +:+ lower b.
Proof.
  induction a as [|c a IH]; [reflexivity|].
  rewrite append_String. cbn [lower]. rewrite append_String, IH. reflexivity.
Qed.

(** The stop flag a message leaves behind: [/start] is handled after
    [/stop]. *)
Lemma procesar_update_eq temp_ext devices hor reg (est : gmap string Mem) u :
  let t := lower (text u) in
  let stop' := if str_in "/start" t then false
               else if str_in "/stop" t then true else stop_mode reg in
  procesar_update temp_ext devices hor (reg, est) u =
    ((if str_in "/reset" t then [EnviarTelegram BloqueosReseteados temp_ext] else []) ++
     (if str_in "/stop" t then [EnviarTelegram ModoStop temp_ext] else []) ++
     (if str_in "/start" t then [EnviarTelegram ModoStart temp_ext] else []) ++
     (if str_in "/info" t
      then [EnviarTelegram (Estado hor stop' (map linea_estado devices)) temp_ext]
      else []),
     Ok ({| last_telegram_update_id := update_id u; stop_mode := stop' |},
         if str_in "/reset" t then reset_bloqueo <$> est else est)).
Proof.
  cbv zeta. unfold procesar_update.
  destruct (str_in "/reset" (lower (text u))), (str_in "/stop" (lower (text u))),
    (str_in "/start" (lower (text u))), (str_in "/info" (lower (text u)));
    reflexivity.
Qed.

(** C9: a directive is recognised when it occurs anywhere in the
    lowercased text of a message (so in any letter case and surrounded by
    any other text); a message triggers every directive it contains, in
    the order reset, stop, start, info, each with its notification; the
    update cursor always advances; and a message that contains [/start]
    leaves stop mode off even if it also contains [/stop]. *)
Theorem directives_by_substring temp_ext devices hor reg (est : gmap string Mem) u :
  let t := lower (text u) in
  let stop' := if str_in "/start" t then false
               else if str_in "/stop" t then true else stop_mode reg in
  (forall pat, str_in pat t = true <-> exists pre post, t = pre +:+ pat +:+ post) /\
  (forall pre cmd post, text u = pre +:+ cmd +:+ post -> str_in (lower cmd) t = true) /\
  procesar_update temp_ext devices hor (reg, est) u =
    ((if str_in "/reset" t then [EnviarTelegram BloqueosReseteados temp_ext] else []) ++
     (if str_in "/stop" t then [EnviarTelegram ModoStop temp_ext] else []) ++
     (if str_in "/start" t then [EnviarTelegram ModoStart temp_ext] else []) ++
     (if str_in "/info" t
      then [EnviarTelegram (Estado hor stop' (map linea_estado devices)) temp_ext]
      else []),
     Ok ({| last_telegram_update_id := update_id u; stop_mode := stop' |},
         if str_in "/reset" t then reset_bloqueo <$> est else est)) /\
  (str_in "/stop" t = true -> str_in "/start" t = true -> stop' = false).
Proof.
  cbv zeta. split; [|split; [|split]].
  - intros pat. apply str_in_iff.
  - intros pre cmd post H. apply str_in_iff.
    exists (lower pre), (lower post). rewrite H, !lower_app. reflexivity.
  - apply procesar_update_eq.
  - intros _ ->. reflexivity.
Qed.

(** A message in mixed case with text around both directives. *)
Example stop_y_start_en_un_mensaje :
  procesar_update 10 [] true
    ({| last_telegram_update_id := 4; stop_mode := true |}, ∅)
    {| update_id := 5; text := "por favor /STOP y luego /Start, gracias" |} =
  ([EnviarTelegram ModoStop 10; EnviarTelegram ModoStart 10],
   Ok ({| last_telegram_update_id := 5; stop_mode := false |}, ∅)).
Proof. vm_compute. reflexivity. Qed.

(** ** The command processor as a whole *)

Lemma reset_bloqueo_idem (est : gmap string Mem) :
  reset_bloqueo <$> (reset_bloqueo <$> est) = reset_bloqueo <$> est.
Proof.
  apply map_eq. intros k. rewrite !lookup_fmap.
  destruct (est !! k); reflexivity.
Qed.

Lemma callado_limpio (e : Event) : callado e -> limpio e.
Proof. destruct e as [| | | n p [] | | |]; intros [H1 H2]; split; auto; discriminate. Qed.

Lemma procesar_update_callado temp_ext devices hor st u :
  Forall callado (trace (procesar_update temp_ext devices hor st u)).
Proof.
  destruct st as [reg est]. rewrite procesar_update_eq. cbv zeta.
  cbn [trace fst].
  destruct (str_in "/reset" (lower (text u))), (str_in "/stop" (lower (text u))),
    (str_in "/start" (lower (text u))), (str_in "/info" (lower (text u)));
    repeat constructor.
Qed.

Lemma procesar_updates_spec temp_ext devices hor us :
  forall reg (est : gmap string Mem),
    Forall callado (trace (procesar_updates temp_ext devices hor (reg, est) us)) /\
    exists reg',
      result (procesar_updates temp_ext devices hor (reg, est) us) =
      Ok (reg',
          if existsb (fun u => str_in "/reset" (lower (text u))) us
          then reset_bloqueo <$> est else est).
Proof.
  induction us as [|u us IH]; intros reg est.
  - split; [constructor | exists reg; reflexivity].
  - cbn [procesar_updates existsb].
    pose proof (procesar_update_callado temp_ext devices hor (reg, est) u) as Hc.
    rewrite procesar_update_eq in *. cbv zeta in *.
    rewrite bind_pair_ok. cbn [trace result fst snd] in *.
    match goal with |- context [procesar_updates _ _ _ (?r, ?e) us] =>
      destruct (IH r e) as (Ht & reg' & Hr) end.
    split.
    + apply Forall_app; split; assumption.
    + exists reg'. rewrite Hr.
      destruct (str_in "/reset" (lower (text u))); cbn [orb]; [|reflexivity].
      rewrite reset_bloqueo_idem.
      destruct (existsb _ us); reflexivity.
Qed.

Lemma check_telegram_commands_spec temp_ext devices hor poll reg (est : gmap string Mem) :
  Forall callado (trace (check_telegram_commands temp_ext devices hor poll reg est)) /\
  exists reg',
    result (check_telegram_commands temp_ext devices hor poll reg est) =
    Ok (reg', if reset_recibido poll then reset_bloqueo <$> est else est).
Proof.
  destruct poll as [| | |results]; cbn [check_telegram_commands reset_recibido].
  - split; [constructor | exists reg; reflexivity].
  - split; [repeat constructor | exists reg; reflexivity].
  - split; [repeat constructor | exists reg; reflexivity].
  - rewrite bind_emit. cbn [trace result fst snd].
    destruct (procesar_updates_spec temp_ext devices hor results reg est)
      as (Ht & reg' & Hr).
    split; [constructor; [split; reflexivity | exact Ht] | exists reg'; exact Hr].
Qed.

(** ** Reset *)

Lemma recuperar_reset (est : gmap string Mem) dev :
  recuperar (reset_bloqueo <$> est) dev = reset_bloqueo (recuperar est dev).
Proof.
  unfold recuperar. rewrite lookup_fmap.
  destruct (est !! name dev); reflexivity.
Qed.

Lemma libre_tras_reset ts (est : gmap string Mem) dev :
  0 <= ts ->
  cambiado (recuperar est dev) dev = false ->
  mem_en_decision ts (reset_bloqueo <$> est) dev
    = refrescar dev (reset_bloqueo (recuperar est dev)) /\
  en_bloqueo ts (mem_en_decision ts (reset_bloqueo <$> est) dev) = false.
Proof.
  intros Hts Hc.
  assert (Hm : mem_en_decision ts (reset_bloqueo <$> est) dev
               = refrescar dev (reset_bloqueo (recuperar est dev))).
  { unfold mem_en_decision, manual_detectado. rewrite recuperar_reset.
    change (cambiado (reset_bloqueo (recuperar est dev)) dev)
      with (cambiado (recuperar est dev) dev).
    rewrite Hc. reflexivity. }
  split; [exact Hm|]. rewrite Hm. apply Qltb_ge. exact Hts.
Qed.

(** C8: when a polled message carries the reset directive, the command
    processor returns a store in which every unit's [bloqueo_hasta] is 0
    (a unit without an entry defaults to 0 as well).  In the device loop
    that follows, a unit whose observed state equals its memory passes
    the lockout test and is handed to the decision engine; this is in
    particular the case of a unit for which the previous cycle detected a
    manual change and armed a lockout, however recently. *)
Theorem reset_command temp_ext devices hor results reg (est : gmap string Mem) :
  reset_recibido (PollOk results) = true ->
  exists reg',
    result (check_telegram_commands temp_ext devices hor (PollOk results) reg est)
      = Ok (reg', reset_bloqueo <$> est) /\
    (forall dev, bloqueo_hasta (recuperar (reset_bloqueo <$> est) dev) = 0) /\
    (forall ts temp inv hor' dev,
        0 <= ts ->
        cambiado (recuperar est dev) dev = false ->
        en_bloqueo ts (mem_en_decision ts (reset_bloqueo <$> est) dev) = false /\
        commands (trace (procesar_dispositivo ts temp inv hor' reg'
                           (reset_bloqueo <$> est) dev)) =
        commands (trace (motor_decision temp inv hor' reg' dev (objetivo dev)
                           (refrescar dev (reset_bloqueo (recuperar est dev)))))) /\
    (forall ts0 temp0 inv0 hor0 reg0 (est0 : gmap string Mem) dev ts,
        manual_detectado ts0 (recuperar est0 dev) dev = true ->
        result (procesar_dispositivo ts0 temp0 inv0 hor0 reg0 est0 dev) = Ok est ->
        0 <= ts ->
        ts0 < bloqueo_hasta (recuperar est dev) /\
        en_bloqueo ts (mem_en_decision ts (reset_bloqueo <$> est) dev) = false).
Proof.
  intros Hreset.
  destruct (check_telegram_commands_spec temp_ext devices hor (PollOk results) reg est)
    as (_ & reg' & Hr).
  rewrite Hreset in Hr. exists reg'.
  split; [exact Hr|]. split; [|split].
  - intros dev. rewrite recuperar_reset. reflexivity.
  - intros ts temp inv hor' dev Hts Hc.
    destruct (libre_tras_reset ts est dev Hts Hc) as [Hm Hl].
    split; [exact Hl|].
    rewrite (procesar_dispositivo_libre _ _ _ _ _ _ _ Hl). cbv zeta.
    rewrite Hm. reflexivity.
  - intros ts0 temp0 inv0 hor0 reg0 est0 dev ts Hman Hprev Hts.
    rewrite procesar_dispositivo_eq in Hprev. cbv zeta in Hprev.
    assert (Hlock : en_bloqueo ts0 (mem_en_decision ts0 est0 dev) = true).
    { destruct (en_bloqueo ts0 (mem_en_decision ts0 est0 dev)) eqn:E; [reflexivity|].
      apply sin_bloqueo_sin_manual in E. congruence. }
    rewrite Hlock in Hprev. cbn [result snd] in Hprev.
    injection Hprev as <-.
    split.
    + rewrite recuperar_insert. apply Qltb_lt. exact Hlock.
    + apply libre_tras_reset; [exact Hts|].
      rewrite recuperar_insert. unfold mem_en_decision. apply cambiado_refrescar.
Qed.

Lemma reset_command_witness :
  let dev := {| name := "Salón"; power := true; target_temperature := 24;
                set_raises := false |} in
  let est0 : gmap string Mem :=
    {[ "Salón"%string := {| mem_power := false; mem_target_temperature := 22.5;
                            bloqueo_hasta := 0 |} ]} in
  let reg := {| last_telegram_update_id := 0; stop_mode := false |} in
  let est := <[name dev := mem_en_decision 1000 est0 dev]> est0 in
  let results := [ {| update_id := 1; text := "/Reset" |} ] in
  1000 < bloqueo_hasta (recuperar est dev) /\
  (exists reg',
      result (check_telegram_commands (-3) [dev] true (PollOk results) reg est)
      = Ok (reg', reset_bloqueo <$> est)) /\
  en_bloqueo 1060 (mem_en_decision 1060 (reset_bloqueo <$> est) dev) = false.
Proof.
  intros dev est0 reg est results.
  assert (Hreset : reset_recibido (PollOk results) = true) by reflexivity.
  destruct (reset_command (-3) [dev] true results reg est Hreset)
    as (reg' & Hr & _ & _ & Hprev).
  assert (Hman : manual_detectado 1000 (recuperar est0 dev) dev = true)
    by (vm_compute; reflexivity).
  assert (Hstep : result (procesar_dispositivo 1000 (-3) true true reg est0 dev) = Ok est)
    by (vm_compute; reflexivity).
  assert (Hts : 0 <= 1060) by (vm_compute; discriminate).
  destruct (Hprev 1000 (-3) true true reg est0 dev 1060 Hman Hstep Hts) as [Hb Hl].
  split; [exact Hb|]. split; [exists reg'; exact Hr | exact Hl].
Defined.

(** ** Shape of the traces *)

Lemma traza_ok_ret {A} (a : A) : traza_ok (mret a : M A).
Proof. constructor. Qed.

Lemma traza_ok_bind {A B} (m : M A) (k : A -> M B) :
  traza_ok m -> (forall a, traza_ok (k a)) -> traza_ok (m ≫= k).
Proof.
  destruct m as [t [a|]]; unfold traza_ok at 1; cbn [result trace fst snd].
  - intros Ht Hk. specialize (Hk a). rewrite bind_pair_ok.
    unfold traza_ok in *. cbn [result trace fst snd].
    destruct (result (k a)).
    + apply Forall_app; split; assumption.
    + destruct Hk as (t0 & n & p & Heq & Ht0).
      exists (t ++ t0), n, p. rewrite Heq, app_assoc.
      split; [reflexivity | apply Forall_app; split; assumption].
  - intros H _. exact H.
Qed.

Lemma traza_ok_efecto_apagar temp_ext dev mem a :
  traza_ok (efecto_apagar temp_ext dev mem a).
Proof.
  unfold efecto_apagar, traza_ok.
  destruct (power dev); [destruct (set_raises dev)|]; simpl.
  - exists [], (name dev), props_apagar. split; [reflexivity | constructor].
  - repeat constructor.
  - constructor.
Qed.

Lemma traza_ok_efecto_calentar temp_ext dev obj mem :
  traza_ok (efecto_calentar temp_ext dev obj mem).
Proof.
  unfold efecto_calentar, traza_ok. destruct (set_raises dev); simpl.
  - exists [Log (LAjustando (name dev) obj)], (name dev), (props_calentar obj).
    split; [reflexivity | repeat constructor].
  - repeat constructor.
Qed.

Lemma traza_ok_motor_decision temp_ext inv hor reg dev obj mem :
  traza_ok (motor_decision temp_ext inv hor reg dev obj mem).
Proof.
  rewrite motor_decision_eq.
  repeat match goal with
         | |- traza_ok (if ?b then _ else _) => destruct b
         end;
    first [ apply traza_ok_efecto_apagar
          | apply traza_ok_efecto_calentar
          | constructor ].
Qed.

(** The decision engine never touches [bloqueo_hasta]. *)
Lemma motor_decision_bloqueo temp_ext inv hor reg dev obj mem mem' :
  result (motor_decision temp_ext inv hor reg dev obj mem) = Ok mem' ->
  bloqueo_hasta mem' = bloqueo_hasta mem.
Proof.
  rewrite motor_decision_eq. unfold efecto_apagar, efecto_calentar.
  repeat match goal with
         | |- context [if ?b then _ else _] => destruct b
         end; simpl; intros H; try discriminate; injection H as <-; reflexivity.
Qed.

Lemma traza_ok_procesar_dispositivo ts temp_ext inv hor reg (estados : gmap string Mem) dev :
  traza_ok (procesar_dispositivo ts temp_ext inv hor reg estados dev).
Proof.
  rewrite procesar_dispositivo_eq. cbv zeta.
  assert (Hcab : Forall limpio
    (Log (LDispositivo (name dev) (power dev) (target_temperature dev) (objetivo dev))
     :: (if manual_detectado ts (recuperar estados dev) dev then
           [Log (LManualDetectado (name dev));
            EnviarTelegram (CambioManual (name dev) (target_temperature dev)) temp_ext]
         else []))).
  { destruct (manual_detectado ts (recuperar estados dev) dev); repeat constructor. }
  destruct (en_bloqueo ts (mem_en_decision ts estados dev)).
  - unfold traza_ok. cbn [result trace fst snd].
    apply Forall_app; split; [exact Hcab | repeat constructor].
  - pose proof (traza_ok_motor_decision temp_ext inv hor reg dev (objetivo dev)
                  (mem_en_decision ts estados dev)) as Hm.
    unfold traza_ok in *. cbn [result trace fst snd].
    destruct (result (motor_decision temp_ext inv hor reg dev (objetivo dev)
                        (mem_en_decision ts estados dev))).
    + apply Forall_app; split; assumption.
    + destruct Hm as (t0 & n & p & Heq & Ht0).
      eexists _, n, p. rewrite Heq, app_assoc.
      split; [reflexivity | apply Forall_app; split; assumption].
Qed.

Lemma traza_ok_bucle_dispositivos ts temp_ext inv hor reg devices :
  forall estados : gmap string Mem,
    traza_ok (bucle_dispositivos ts temp_ext inv hor reg estados devices).
Proof.
  induction devices as [|dev rest IH]; intros estados; cbn [bucle_dispositivos].
  - apply traza_ok_ret.
  - apply traza_ok_bind; [apply traza_ok_procesar_dispositivo | intros est; apply IH].
Qed.

(** ** Shape of a whole cycle *)

Lemma guardado_final_eq w (est : gmap string Mem) reg temp_ext :
  guardado_final w est reg temp_ext =
  (cola_guardado w est reg temp_ext, if csv_raises w then Raised else Ok tt).
Proof.
  unfold guardado_final, save_json_estados, save_json_registro,
    llamar_guardar_resumen_csv, cola_guardado.
  destruct (save_state_falla w), (save_registro_falla w), (csv_raises w); reflexivity.
Qed.

(** The final writes issue no device command. *)
Lemma cola_guardado_sin_comandos w (est : gmap string Mem) reg temp_ext n p ok :
  ~ In (DevSet n p ok) (cola_guardado w est reg temp_ext).
Proof.
  unfold cola_guardado.
  destruct (save_state_falla w), (save_registro_falla w), (csv_raises w);
    simpl; intuition discriminate.
Qed.

(** The only writes among them are the three calls, with their arguments. *)
Lemma cola_guardado_escrituras w (est : gmap string Mem) reg temp_ext ev :
  In ev (cola_guardado w est reg temp_ext) -> is_persist ev = true ->
  ev = SaveState est \/ ev = SaveRegistro reg \/ ev = GuardarResumenCsv temp_ext.
Proof.
  unfold cola_guardado.
  destruct (save_state_falla w), (save_registro_falla w), (csv_raises w);
    simpl; intros H Hp;
    repeat match goal with
           | H : _ \/ _ |- _ => destruct H as [H|H]
           | H : False |- _ => destruct H
           end; subst ev; auto; discriminate.
Qed.

(** The store the device loop starts from. *)
Lemma main_shape e :
  match clima e with
  | None => main e = ([Log LInicio; Log LErrorClima], Ok tt)
  | Some temp_ext =>
      match melcloud e with
      | None => result (main e) = Raised /\ Forall callado (trace (main e))
      | Some devices =>
          exists t0 reg1,
            Forall callado t0 /\
            let est1 := if reset_recibido (telegram e)
                        then reset_bloqueo <$> estados_json e else estados_json e in
            let b := bucle_dispositivos (ahora_ts (reloj e)) temp_ext
                       (es_invierno_de (reloj e)) (en_horario_de (reloj e))
                       reg1 est1 devices in
            main e =
            (t0 ++ trace b ++
               match result b with
               | Ok est2 => cola_guardado (escrituras e) est2 reg1 temp_ext
               | Raised => []
               end,
             match result b with
             | Ok _ => if csv_raises (escrituras e) then Raised else Ok tt
             | Raised => Raised
             end)
      end
  end.
Proof.
  unfold main. rewrite bind_emit.
  destruct (clima e) as [temp_ext|]; [|reflexivity].
  rewrite bind_emit. cbn [trace result fst snd].
  set (aviso := if es_invierno_de (reloj e) && Qle_bool temp_ext 1
                then emit (Log LAvisoCaldera);; emit (EnviarTelegram AlertaCaldera temp_ext)
                else mret tt).
  assert (Haviso : exists ta, aviso = (ta, Ok tt) /\ Forall callado ta).
  { subst aviso. destruct (es_invierno_de (reloj e) && Qle_bool temp_ext 1).
    - eexists; split; [reflexivity | repeat constructor].
    - eexists; split; [reflexivity | constructor]. }
  destruct Haviso as (ta & -> & Hta). rewrite bind_pair_ok.
  destruct (melcloud e) as [devices|].
  - rewrite bind_ret.
    destruct (check_telegram_commands_spec temp_ext devices (en_horario_de (reloj e))
                (telegram e) (registro_inicial (registro_json e)) (estados_json e))
      as (Htel & reg1 & Hreg1).
    destruct (check_telegram_commands temp_ext devices (en_horario_de (reloj e))
                (telegram e) (registro_inicial (registro_json e)) (estados_json e))
      as [ttel rtel].
    cbn [trace result fst snd] in Htel, Hreg1. subst rtel.
    rewrite bind_pair_ok.
    exists (Log LInicio :: Log (LTempExterior temp_ext) :: ta ++ ttel), reg1.
    split.
    { constructor; [split; reflexivity|]. constructor; [split; reflexivity|].
      apply Forall_app; split; assumption. }
    cbv zeta.
    destruct (bucle_dispositivos (ahora_ts (reloj e)) temp_ext (es_invierno_de (reloj e))
                (en_horario_de (reloj e)) reg1
                (if reset_recibido (telegram e)
                 then reset_bloqueo <$> estados_json e else estados_json e) devices)
      as [tb [est2|]].
    + rewrite bind_pair_ok, guardado_final_eq. cbn [trace result fst snd app].
      rewrite <- ?app_assoc. reflexivity.
    + unfold mbind at 1, M_bind at 1. cbn [trace result fst snd app].
      rewrite app_nil_r, <- ?app_assoc. reflexivity.
  - unfold raise. unfold mbind, M_bind. cbn [trace result fst snd].
    split; [reflexivity|].
    constructor; [split; reflexivity|]. constructor; [split; reflexivity|].
    rewrite app_nil_r. exact Hta.
Qed.

Lemma limpio_no_failed (t : list Event) n p :
  Forall limpio t -> ~ In (DevSet n p false) t.
Proof.
  intros H Hin. rewrite Forall_forall in H.
  destruct (H _ (proj2 (list_elem_of_In _ _) Hin)) as [Hf _]. discriminate.
Qed.

Lemma callado_no_command (t : list Event) n p ok :
  Forall callado t -> ~ In (DevSet n p ok) t.
Proof.
  intros H Hin. rewrite Forall_forall in H.
  destruct (H _ (proj2 (list_elem_of_In _ _) Hin)) as [Hf _]. discriminate.
Qed.

Lemma limpio_persisted (t : list Event) : Forall limpio t -> persisted t = [].
Proof.
  induction 1 as [|e t [_ He] _ IH]; [reflexivity|].
  unfold persisted in *. cbn [List.filter]. rewrite He. exact IH.
Qed.

Lemma limpio_no_persist (t : list Event) e :
  Forall limpio t -> In e t -> is_persist e = false.
Proof.
  intros H Hin. rewrite Forall_forall in H.
  exact (proj2 (H _ (proj2 (list_elem_of_In _ _) Hin))).
Qed.

Lemma persisted_app (a b : list Event) : persisted (a ++ b) = persisted a ++ persisted b.
Proof. apply List.filter_app. Qed.

Lemma Forall_callado_limpio (t : list Event) : Forall callado t -> Forall limpio t.
Proof. intros H. eapply Forall_impl; [exact H | exact callado_limpio]. Qed.

(** ** Failure of a device command *)

(** C2, as stated, fails: the first unit's command raises, the second
    unit (on, below the safety threshold, so it would be switched off) is
    never reached, and the cycle ends in the top-level handler without
    any of the three writes. *)
Lemma apply_failure_counterexample :
  let e := {| registro_json := {| json_last_telegram_update_id := None;
                                  json_stop_mode := None |};
              estados_json := ∅;
              reloj := {| hour := 10; minute := 0; month := 1; weekday := 2;
                          ahora_ts := 1700000000 |};
              clima := Some (-3);
              melcloud := Some [ {| name := "Salón"; power := true;
                                    target_temperature := 20; set_raises := true |};
                                 {| name := "Dormitorio"; power := true;
                                    target_temperature := 20; set_raises := false |} ];
              telegram := NoBotToken;
              escrituras := escrituras_ok |} in
  run_safe e =
    [Log LInicio; Log (LTempExterior (-3)); Log LAvisoCaldera;
     EnviarTelegram AlertaCaldera (-3);
     Log (LDispositivo "Salón" true 20 22.5);
     DevSet "Salón" props_apagar false;
     Log LFatalError] /\
  persisted (run_safe e) = [].
Proof. split; vm_compute; reflexivity. Qed.

(** C2 (amended): a device command that fails is the last thing the cycle
    does.  The exception reaches the top-level handler, which logs it;
    nothing follows the failed command in the trace but that log line, so
    the remaining units are not processed, and nothing is written: the
    memory store (for this unit and every other), the registry and the
    history keep their previous contents.  No command had failed
    before. *)
Theorem apply_failure_aborts_cycle e n props :
  In (DevSet n props false) (run_safe e) ->
  result (main e) = Raised /\
  (exists t, run_safe e = t ++ [DevSet n props false; Log LFatalError] /\
             Forall limpio t) /\
  persisted (run_safe e) = [].
Proof.
  intros Hin. unfold run_safe in *.
  pose proof (main_shape e) as Hs.
  destruct (clima e) as [temp_ext|].
  2:{ rewrite Hs in Hin. simpl in Hin. intuition discriminate. }
  destruct (melcloud e) as [devices|].
  2:{ destruct Hs as [Hr Hc]. rewrite (M_eta (main e)), Hr in Hin.
      apply in_app_or in Hin. destruct Hin as [Hin|Hin].
      - exfalso. exact (callado_no_command _ _ _ _ Hc Hin).
      - simpl in Hin. intuition discriminate. }
  destruct Hs as (t0 & reg1 & Ht0 & Hs). cbv zeta in Hs.
  pose proof (traza_ok_bucle_dispositivos (ahora_ts (reloj e)) temp_ext
                (es_invierno_de (reloj e)) (en_horario_de (reloj e)) reg1 devices
                (if reset_recibido (telegram e)
                 then reset_bloqueo <$> estados_json e else estados_json e)) as Hb.
  unfold traza_ok in Hb. rewrite Hs in *. clear Hs.
  destruct (result (bucle_dispositivos _ _ _ _ _ _ _)) as [est2|].
  - exfalso.
    assert (Hin' : In (DevSet n props false)
                      (t0 ++ trace (bucle_dispositivos (ahora_ts (reloj e)) temp_ext
                                      (es_invierno_de (reloj e)) (en_horario_de (reloj e))
                                      reg1
                                      (if reset_recibido (telegram e)
                                       then reset_bloqueo <$> estados_json e
                                       else estados_json e) devices)
                          ++ cola_guardado (escrituras e) est2 reg1 temp_ext)).
    { destruct (csv_raises (escrituras e)); [|exact Hin].
      apply in_app_or in Hin. destruct Hin as [Hin|Hin]; [exact Hin|].
      simpl in Hin. intuition discriminate. }
    clear Hin. apply in_app_or in Hin'. destruct Hin' as [Hin|Hin].
    + exact (callado_no_command _ _ _ _ Ht0 Hin).
    + apply in_app_or in Hin. destruct Hin as [Hin|Hin].
      * exact (limpio_no_failed _ _ _ Hb Hin).
      * exact (cola_guardado_sin_comandos _ _ _ _ _ _ _ Hin).
  - destruct Hb as (t & n' & p' & Heq & Ht). rewrite Heq in *.
    rewrite app_nil_r in *.
    assert (Hlimpio : Forall limpio (t0 ++ t))
      by (apply Forall_app; split; [apply Forall_callado_limpio|]; assumption).
    assert (Hnp : DevSet n' p' false = DevSet n props false).
    { rewrite !app_assoc in Hin.
      apply in_app_or in Hin. destruct Hin as [Hin|Hin].
      - apply in_app_or in Hin. destruct Hin as [Hin|Hin].
        + exfalso. exact (limpio_no_failed _ _ _ Hlimpio Hin).
        + simpl in Hin. destruct Hin as [Hin|[]]. exact Hin.
      - simpl in Hin. intuition discriminate. }
    rewrite Hnp in *.
    split; [reflexivity|]. split.
    + exists (t0 ++ t). split; [|exact Hlimpio].
      rewrite <- !app_assoc. reflexivity.
    + rewrite !persisted_app, (limpio_persisted _ (Forall_callado_limpio _ Ht0)),
        (limpio_persisted _ Ht). reflexivity.
Qed.

Lemma apply_failure_aborts_cycle_witness :
  let e := {| registro_json := {| json_last_telegram_update_id := None;
                                  json_stop_mode := None |};
              estados_json := ∅;
              reloj := {| hour := 10; minute := 0; month := 1; weekday := 2;
                          ahora_ts := 1700000000 |};
              clima := Some 10;
              melcloud := Some [ {| name := "Salón"; power := false;
                                    target_temperature := 20; set_raises := true |};
                                 {| name := "Dormitorio"; power := false;
                                    target_temperature := 20; set_raises := false |} ];
              telegram := NoBotToken;
              escrituras := escrituras_ok |} in
  result (main e) = Raised /\ persisted (run_safe e) = [].
Proof.
  intros e.
  assert (Hin : In (DevSet "Salón" (props_calentar 22.5) false) (run_safe e))
    by (vm_compute; do 4 right; left; reflexivity).
  destruct (apply_failure_aborts_cycle e _ _ Hin) as (Hr & _ & Hp).
  split; assumption.
Defined.

(** ** The lockout invariant *)

Lemma bind_result_ok {A B} (m : M A) (k : A -> M B) (b : B) :
  result (m ≫= k) = Ok b -> exists a, result m = Ok a /\ result (k a) = Ok b.
Proof.
  destruct m as [t [a|]].
  - rewrite bind_pair_ok. cbn [result snd]. intros H. exists a. split; [reflexivity|exact H].
  - unfold mbind, M_bind. cbn [result snd]. discriminate.
Qed.

(** What one iteration does to the store, as far as lockouts go. *)
Lemma procesar_dispositivo_bloqueo ts temp_ext inv hor reg
    (estados est' : gmap string Mem) dev :
  result (procesar_dispositivo ts temp_ext inv hor reg estados dev) = Ok est' ->
  exists m',
    est' = <[name dev := m']> estados /\
    bloqueo_hasta m' = bloqueo_hasta (mem_en_decision ts estados dev).
Proof.
  rewrite procesar_dispositivo_eq. cbv zeta.
  destruct (en_bloqueo ts (mem_en_decision ts estados dev)); cbn [result snd].
  - intros H. injection H as <-. eexists. split; reflexivity.
  - destruct (result (motor_decision temp_ext inv hor reg dev (objetivo dev)
                        (mem_en_decision ts estados dev))) as [m'|] eqn:E;
      [|discriminate].
    intros H. injection H as <-. exists m'. split; [reflexivity|].
    eapply motor_decision_bloqueo. exact E.
Qed.

(** The manual check either leaves [bloqueo_hasta] alone or, on a change
    detected with the previous lockout expired, moves it forward. *)
Lemma gestion_bloqueo_casos ts (estados : gmap string Mem) dev :
  let mem := recuperar estados dev in
  bloqueo_hasta (mem_en_decision ts estados dev) = bloqueo_hasta mem \/
  (cambiado mem dev = true /\
   bloqueo_hasta mem < ts /\
   en_bloqueo ts mem = false /\
   bloqueo_hasta (mem_en_decision ts estados dev) = ts + DURACION_BLOQUEO_MANUAL).
Proof.
  cbv zeta. rewrite bloqueo_mem_en_decision.
  destruct (manual_detectado ts (recuperar estados dev) dev) eqn:E; [right|left; reflexivity].
  unfold manual_detectado in E. apply andb_true_iff in E. destruct E as [Hc Hl].
  apply Qltb_lt in Hl.
  repeat split; try assumption.
  apply Qltb_ge. apply Qlt_le_weak. exact Hl.
Qed.

Lemma gestion_bloqueo_monotona ts (estados : gmap string Mem) dev :
  bloqueo_hasta (recuperar estados dev) <= bloqueo_hasta (mem_en_decision ts estados dev).
Proof.
  destruct (gestion_bloqueo_casos ts estados dev) as [->|(_ & Hlt & _ & ->)].
  - apply Qle_refl.
  - unfold DURACION_BLOQUEO_MANUAL. lra.
Qed.

Lemma bucle_dispositivos_monotono ts temp_ext inv hor reg devices :
  forall (estados est' : gmap string Mem),
    result (bucle_dispositivos ts temp_ext inv hor reg estados devices) = Ok est' ->
    forall k m, estados !! k = Some m ->
      exists m', est' !! k = Some m' /\ bloqueo_hasta m <= bloqueo_hasta m'.
Proof.
  induction devices as [|dev rest IH]; intros estados est'; cbn [bucle_dispositivos].
  - intros H k m Hk. injection H as <-. exists m. split; [exact Hk | apply Qle_refl].
  - intros H k m Hk.
    apply bind_result_ok in H. destruct H as (est1 & Hstep & Hrest).
    apply procesar_dispositivo_bloqueo in Hstep. destruct Hstep as (m1 & -> & Hm1).
    destruct (decide (name dev = k)) as [Heq|Hne].
    + destruct (IH _ _ Hrest k m1) as (m' & Hk' & Hle).
      { rewrite <- Heq. apply lookup_insert_eq. }
      exists m'. split; [exact Hk'|].
      apply Qle_trans with (bloqueo_hasta m1); [|exact Hle].
      rewrite Hm1.
      pose proof (gestion_bloqueo_monotona ts estados dev) as Hmono.
      unfold recuperar in Hmono at 1. rewrite Heq, Hk in Hmono. exact Hmono.
    + apply (IH _ _ Hrest k m). rewrite lookup_insert_ne; assumption.
Qed.

(** C4: [bloqueo_hasta] only changes in two places.
    (1) In the device loop an iteration stores, for its unit, a memory
    whose [bloqueo_hasta] is either the one it found or, when the
    observed state differs from the memory and the previous lockout has
    expired ([bloqueo_hasta < now], so the unit is not inside a lockout
    window), [now + DURACION_BLOQUEO_MANUAL]; either way the value does
    not decrease, and the decision engine never touches it.
    (2) The command processor leaves the store alone unless a polled
    message carries the reset directive, in which case every entry's
    [bloqueo_hasta] becomes 0.
    (3) Over a whole cycle that reaches the final save, every entry of
    the loaded store is still present in the saved store with a
    [bloqueo_hasta] at least as large, unless a reset directive was
    received in that cycle. *)
Theorem lockout_invariant :
  (forall ts temp_ext inv hor reg (estados est' : gmap string Mem) dev,
      result (procesar_dispositivo ts temp_ext inv hor reg estados dev) = Ok est' ->
      exists m',
        est' = <[name dev := m']> estados /\
        bloqueo_hasta (recuperar estados dev) <= bloqueo_hasta m' /\
        (bloqueo_hasta m' = bloqueo_hasta (recuperar estados dev) \/
         (cambiado (recuperar estados dev) dev = true /\
          bloqueo_hasta (recuperar estados dev) < ts /\
          en_bloqueo ts (recuperar estados dev) = false /\
          bloqueo_hasta m' = ts + DURACION_BLOQUEO_MANUAL))) /\
  (forall temp_ext devices hor poll reg (est : gmap string Mem),
      exists reg',
        result (check_telegram_commands temp_ext devices hor poll reg est) =
        Ok (reg', if reset_recibido poll then reset_bloqueo <$> est else est)) /\
  (forall e (est' : gmap string Mem),
      In (SaveState est') (run_safe e) ->
      forall k m, estados_json e !! k = Some m ->
        exists m', est' !! k = Some m' /\
                   (bloqueo_hasta m <= bloqueo_hasta m' \/
                    reset_recibido (telegram e) = true)).
Proof.
  split; [|split].
  - intros ts temp_ext inv hor reg estados est' dev H.
    apply procesar_dispositivo_bloqueo in H. destruct H as (m' & -> & Hm').
    exists m'. rewrite Hm'. split; [reflexivity|]. split.
    + apply gestion_bloqueo_monotona.
    + apply gestion_bloqueo_casos.
  - intros temp_ext devices hor poll reg est.
    apply check_telegram_commands_spec.
  - intros e est' Hin k m Hk. unfold run_safe in Hin.
    pose proof (main_shape e) as Hs.
    destruct (clima e) as [temp_ext|].
    2:{ rewrite Hs in Hin. simpl in Hin. intuition discriminate. }
    destruct (melcloud e) as [devices|].
    2:{ destruct Hs as [Hr Hc]. rewrite (M_eta (main e)), Hr in Hin.
        apply in_app_or in Hin. destruct Hin as [Hin|Hin].
        - pose proof (limpio_no_persist _ _ (Forall_callado_limpio _ Hc) Hin).
          discriminate.
        - simpl in Hin. intuition discriminate. }
    destruct Hs as (t0 & reg1 & Ht0 & Hs). cbv zeta in Hs.
    pose proof (traza_ok_bucle_dispositivos (ahora_ts (reloj e)) temp_ext
                  (es_invierno_de (reloj e)) (en_horario_de (reloj e)) reg1 devices
                  (if reset_recibido (telegram e)
                   then reset_bloqueo <$> estados_json e else estados_json e)) as Hb.
    pose proof (bucle_dispositivos_monotono (ahora_ts (reloj e)) temp_ext
                  (es_invierno_de (reloj e)) (en_horario_de (reloj e)) reg1 devices
                  (if reset_recibido (telegram e)
                   then reset_bloqueo <$> estados_json e else estados_json e)) as Hmono.
    unfold traza_ok in Hb. rewrite Hs in Hin. clear Hs.
    destruct (result (bucle_dispositivos _ _ _ _ _ _ _)) as [est2|].
    + assert (Hest : est' = est2).
      { assert (Hin' : In (SaveState est')
                          (t0 ++ trace (bucle_dispositivos (ahora_ts (reloj e)) temp_ext
                                          (es_invierno_de (reloj e))
                                          (en_horario_de (reloj e)) reg1
                                          (if reset_recibido (telegram e)
                                           then reset_bloqueo <$> estados_json e
                                           else estados_json e) devices)
                              ++ cola_guardado (escrituras e) est2 reg1 temp_ext)).
        { destruct (csv_raises (escrituras e)); [|exact Hin].
          apply in_app_or in Hin. destruct Hin as [Hin|Hin]; [exact Hin|].
          simpl in Hin. intuition discriminate. }
        clear Hin. apply in_app_or in Hin'. destruct Hin' as [Hin|Hin].
        - pose proof (limpio_no_persist _ _ (Forall_callado_limpio _ Ht0) Hin).
          discriminate.
        - apply in_app_or in Hin. destruct Hin as [Hin|Hin].
          + pose proof (limpio_no_persist _ _ Hb Hin). discriminate.
          + destruct (cola_guardado_escrituras _ _ _ _ _ Hin eq_refl) as [H|[H|H]];
              congruence. }
      subst est2.
      destruct (reset_recibido (telegram e)) eqn:Hreset.
      * assert (Hk1 : (reset_bloqueo <$> estados_json e) !! k = Some (reset_bloqueo m))
          by (rewrite lookup_fmap, Hk; reflexivity).
        destruct (Hmono est' eq_refl k _ Hk1) as (m' & Hm' & _).
        exists m'. split; [exact Hm' | right; reflexivity].
      * destruct (Hmono est' eq_refl k m Hk) as (m' & Hm' & Hle).
        exists m'. split; [exact Hm' | left; exact Hle].
    + exfalso. destruct Hb as (t & n' & p' & Heq & Ht). rewrite Heq in Hin.
      repeat (apply in_app_or in Hin; destruct Hin as [Hin|Hin]).
      * pose proof (limpio_no_persist _ _ (Forall_callado_limpio _ Ht0) Hin).
        discriminate.
      * pose proof (limpio_no_persist _ _ Ht Hin). discriminate.
      * simpl in Hin. intuition discriminate.
      * destruct Hin.
      * simpl in Hin. intuition discriminate.
Qed.

Lemma lockout_invariant_witness :
  let mem0 := {| mem_power := false; mem_target_temperature := 22.5;
                 bloqueo_hasta := 500 |} in
  let e := {| registro_json := {| json_last_telegram_update_id := None;
                                  json_stop_mode := None |};
              estados_json := {[ "Salón"%string := mem0 ]};
              reloj := {| hour := 10; minute := 0; month := 1; weekday := 2;
                          ahora_ts := 1000 |};
              clima := Some 10;
              melcloud := Some [ {| name := "Salón"; power := true;
                                    target_temperature := 24; set_raises := false |} ];
              telegram := NoBotToken;
              escrituras := escrituras_ok |} in
  let est' : gmap string Mem :=
    {[ "Salón"%string := {| mem_power := true; mem_target_temperature := 24;
                            bloqueo_hasta := 1000 + DURACION_BLOQUEO_MANUAL |} ]} in
  In (SaveState est') (run_safe e) /\
  exists m', est' !! "Salón"%string = Some m' /\
             (bloqueo_hasta mem0 <= bloqueo_hasta m' \/
              reset_recibido (telegram e) = true).
Proof.
  intros mem0 e est'.
  assert (Hin : In (SaveState est') (run_safe e))
    by (vm_compute; do 6 right; left; reflexivity).
  split; [exact Hin|].
  exact (proj2 (proj2 lockout_invariant) e est' Hin "Salón"%string mem0 eq_refl).
Defined.

Lemma directives_by_substring_witness :
  let u := {| update_id := 9; text := "ahora /Stop... no, mejor /START" |} in
  str_in "/stop" (lower (text u)) = true /\
  str_in "/start" (lower (text u)) = true /\
  result (procesar_update 10 [] true
            ({| last_telegram_update_id := 8; stop_mode := false |}, ∅) u) =
  Ok ({| last_telegram_update_id := 9; stop_mode := false |}, ∅).
Proof.
  intros u.
  destruct (directives_by_substring 10 [] true
              {| last_telegram_update_id := 8; stop_mode := false |} ∅ u)
    as (_ & Hsub & Heq & _).
  split; [|split].
  - exact (Hsub "ahora " "/Stop" "... no, mejor /START" eq_refl).
  - exact (Hsub "ahora /Stop... no, mejor " "/START" "" eq_refl).
  - rewrite Heq. reflexivity.
Defined.

(** ** Worked scenarios *)

(** Outdoor -3, winter, active hours, "Salón" on at 20: switched off by
    the safety rule, memory updated to [power = False]. *)
Example escenario_seguridad :
  let dev := {| name := "Salón"; power := true; target_temperature := 20;
                set_raises := false |} in
  let reg := {| last_telegram_update_id := 0; stop_mode := false |} in
  procesar_dispositivo 1700000000 (-3) true true reg ∅ dev =
  ([Log (LDispositivo "Salón" true 20 22.5);
    DevSet "Salón" props_apagar true;
    EnviarTelegram (Seguridad "Salón") (-3)],
   Ok {[ "Salón"%string := {| mem_power := false; mem_target_temperature := 20;
                              bloqueo_hasta := 0 |} ]}).
Proof. vm_compute. reflexivity. Qed.

(** Outdoor 18, winter, active hours, "Dormitorio" off: switched on in
    heating mode at its objective of 21. *)
Example escenario_apoyo :
  let dev := {| name := "Dormitorio"; power := false; target_temperature := 20;
                set_raises := false |} in
  let reg := {| last_telegram_update_id := 0; stop_mode := false |} in
  procesar_dispositivo 1700000000 18 true true reg ∅ dev =
  ([Log (LDispositivo "Dormitorio" false 20 21);
    Log (LAjustando "Dormitorio" 21);
    DevSet "Dormitorio" (props_calentar 21) true;
    EnviarTelegram (Apoyo "Dormitorio" 21) 18],
   Ok {[ "Dormitorio"%string := {| mem_power := true; mem_target_temperature := 21;
                                   bloqueo_hasta := 0 |} ]}).
Proof. vm_compute. reflexivity. Qed.

(** Outdoor 15 in July, unit on: switched off by the summer rule, inside
    or outside active hours. *)
Example escenario_verano (hor : bool) :
  let dev := {| name := "Jimena"; power := true; target_temperature := 23;
                set_raises := false |} in
  let reg := {| last_telegram_update_id := 0; stop_mode := false |} in
  es_invierno_de {| hour := 12; minute := 0; month := 7; weekday := 0;
                    ahora_ts := 1700000000 |} = false /\
  commands (trace (procesar_dispositivo 1700000000 15 false hor reg ∅ dev)) =
  [DevSet "Jimena" props_apagar true].
Proof. destruct hor; split; vm_compute; reflexivity. Qed.

(** Stop mode on, winter, active hours, mild outdoors: the unit is
    switched off and the comfort rule is not reached. *)
Example escenario_stop :
  let dev := {| name := "Elisa"; power := true; target_temperature := 19;
                set_raises := false |} in
  let reg := {| last_telegram_update_id := 0; stop_mode := true |} in
  trace (procesar_dispositivo 1700000000 12 true true reg ∅ dev) =
  [Log (LDispositivo "Elisa" true 19 21);
   DevSet "Elisa" props_apagar true;
   EnviarTelegram (Stop "Elisa") 12].
Proof. vm_compute. reflexivity. Qed.

(** * Further properties of the code *)

(** ** The command processor over a batch of messages *)

Lemma procesar_updates_resultado temp_ext devices hor us :
  forall reg (est : gmap string Mem),
    result (procesar_updates temp_ext devices hor (reg, est) us) =
    Ok (foldl registro_tras_update reg us,
        if existsb (fun u => str_in "/reset" (lower (text u))) us
        then reset_bloqueo <$> est else est).
Proof.
  induction us as [|u us IH]; intros reg est; [reflexivity|].
  cbn [procesar_updates existsb foldl].
  rewrite procesar_update_eq. cbv zeta. rewrite bind_pair_ok. cbn [result snd].
  rewrite IH. unfold registro_tras_update at 2. cbv zeta. cbn [stop_mode].
  destruct (str_in "/reset" (lower (text u))); cbn [orb]; [|reflexivity].
  rewrite reset_bloqueo_idem. destruct (existsb _ us); reflexivity.
Qed.

Lemma check_telegram_commands_resultado temp_ext devices hor poll reg
    (est : gmap string Mem) :
  result (check_telegram_commands temp_ext devices hor poll reg est) =
  Ok (registro_tras_poll poll reg,
      if reset_recibido poll then reset_bloqueo <$> est else est).
Proof.
  destruct poll as [| | |results]; try reflexivity.
  cbn [check_telegram_commands]. rewrite bind_emit. cbn [result snd].
  apply procesar_updates_resultado.
Qed.

Lemma last_cons {A} (a d : A) (l : list A) : List.last (a :: l) d = List.last l a.
Proof.
  revert a d. induction l as [|b l IH]; intros a d; [reflexivity|].
  change (List.last (a :: b :: l) d) with (List.last (b :: l) d).
  rewrite !IH. reflexivity.
Qed.

Lemma cursor_foldl us :
  forall reg,
    last_telegram_update_id (foldl registro_tras_update reg us) =
    List.last (map update_id us) (last_telegram_update_id reg).
Proof.
  induction us as [|u us IH]; intros reg; [reflexivity|].
  cbn [foldl map]. rewrite IH, last_cons. reflexivity.
Qed.

Lemma last_Forall {A} (P : A -> Prop) (l : list A) (d : A) :
  l <> [] -> Forall P l -> P (List.last l d).
Proof.
  intros Hne H. revert d. induction H as [|a l Ha Hl IH]; intros d; [congruence|].
  rewrite last_cons. destruct l as [|b l]; [exact Ha|].
  apply IH. discriminate.
Qed.

(** X1: after a successful poll the cursor is the id of the last message
    of the batch (unchanged for an empty batch), whatever the messages
    say; the request asks for the ids after the stored cursor; and when
    every polled id lies after the stored cursor, a non-empty batch moves
    the cursor strictly forward. *)
Theorem cursor_follows_last_update temp_ext devices hor results reg
    (est : gmap string Mem) :
  let c := check_telegram_commands temp_ext devices hor (PollOk results) reg est in
  exists reg' est' rest,
    result c = Ok (reg', est') /\
    trace c = GetUpdates (last_telegram_update_id reg + 1) :: rest /\
    last_telegram_update_id reg' =
      List.last (map update_id results) (last_telegram_update_id reg) /\
    (results <> [] ->
     Forall (fun u => (last_telegram_update_id reg < update_id u)%Z) results ->
     (last_telegram_update_id reg < last_telegram_update_id reg')%Z).
Proof.
  cbv zeta.
  exists (registro_tras_poll (PollOk results) reg),
         (if reset_recibido (PollOk results) then reset_bloqueo <$> est else est),
         (trace (procesar_updates temp_ext devices hor (reg, est) results)).
  split; [apply check_telegram_commands_resultado|].
  split; [cbn [check_telegram_commands]; rewrite bind_emit; reflexivity|].
  cbn [registro_tras_poll]. rewrite cursor_foldl. split; [reflexivity|].
  intros Hne Hall.
  apply (last_Forall (fun i => (last_telegram_update_id reg < i)%Z)).
  - destruct results; [congruence | discriminate].
  - apply Forall_map. exact Hall.
Qed.

Lemma cursor_follows_last_update_witness :
  let reg := {| last_telegram_update_id := 40; stop_mode := true |} in
  let results := [ {| update_id := 41; text := "hola" |};
                   {| update_id := 42; text := "/info" |} ] in
  exists reg' est' rest,
    result (check_telegram_commands 10 [] true (PollOk results) reg ∅)
      = Ok (reg', est') /\
    trace (check_telegram_commands 10 [] true (PollOk results) reg ∅)
      = GetUpdates 41 :: rest /\
    last_telegram_update_id reg' = 42%Z /\
    (40 < last_telegram_update_id reg')%Z.
Proof.
  intros reg results.
  destruct (cursor_follows_last_update 10 [] true results reg ∅)
    as (reg' & est' & rest & Hr & Ht & Hl & Hlt).
  exists reg', est', rest. repeat split; try assumption.
  apply Hlt; [discriminate|].
  repeat constructor.
Defined.

Lemma foldl_sin_directiva us :
  forall reg,
    Forall (fun u => tiene_directiva u = false) us ->
    foldl registro_tras_update reg us =
    {| last_telegram_update_id :=
         List.last (map update_id us) (last_telegram_update_id reg);
       stop_mode := stop_mode reg |}.
Proof.
  induction us as [|u us IH]; intros reg H.
  - destruct reg; reflexivity.
  - apply Forall_cons in H. destruct H as [Hu Hus].
    cbn [foldl map]. rewrite (IH _ Hus), last_cons.
    unfold tiene_directiva in Hu. cbv zeta in Hu.
    repeat (apply orb_false_iff in Hu; destruct Hu as [Hu ?]).
    unfold registro_tras_update. cbv zeta. cbn [last_telegram_update_id stop_mode].
    repeat match goal with H : str_in _ _ = false |- _ => rewrite H; clear H end.
    reflexivity.
Qed.

Lemma trace_sin_directiva temp_ext devices hor us :
  forall st,
    Forall (fun u => tiene_directiva u = false) us ->
    trace (procesar_updates temp_ext devices hor st us) = [].
Proof.
  induction us as [|u us IH]; intros [reg est] H; [reflexivity|].
  apply Forall_cons in H. destruct H as [Hu Hus].
  cbn [procesar_updates]. rewrite procesar_update_eq. cbv zeta.
  rewrite bind_pair_ok. cbn [trace fst]. rewrite (IH _ Hus), app_nil_r.
  unfold tiene_directiva in Hu. cbv zeta in Hu.
  repeat (apply orb_false_iff in Hu; destruct Hu as [Hu ?]).
  repeat match goal with H : str_in _ _ = false |- _ => rewrite H; clear H end.
  reflexivity.
Qed.

(** X2: a batch in which no message contains any of the four directives
    is consumed silently: the only effect is the poll itself and the
    cursor moving to the last id; no notification is sent, stop mode and
    every device memory stay as they were. *)
Theorem unrecognised_messages_only_move_cursor temp_ext devices hor results reg
    (est : gmap string Mem) :
  Forall (fun u => tiene_directiva u = false) results ->
  check_telegram_commands temp_ext devices hor (PollOk results) reg est =
  ([GetUpdates (last_telegram_update_id reg + 1)],
   Ok ({| last_telegram_update_id :=
            List.last (map update_id results) (last_telegram_update_id reg);
          stop_mode := stop_mode reg |},
       est)).
Proof.
  intros H.
  rewrite (M_eta (check_telegram_commands _ _ _ _ _ _)).
  rewrite check_telegram_commands_resultado.
  cbn [check_telegram_commands registro_tras_poll reset_recibido].
  rewrite bind_emit. cbn [trace fst].
  rewrite (trace_sin_directiva _ _ _ _ _ H), (foldl_sin_directiva _ _ H).
  replace (existsb (fun u => str_in "/reset" (lower (text u))) results) with false;
    [reflexivity|].
  symmetry. apply not_true_iff_false. intros Hex.
  apply existsb_exists in Hex. destruct Hex as (u & Hin & Hu).
  rewrite Forall_forall in H. specialize (H u (proj2 (list_elem_of_In _ _) Hin)).
  unfold tiene_directiva in H. cbv zeta in H. rewrite Hu in H. discriminate.
Qed.

Lemma unrecognised_messages_only_move_cursor_witness :
  let reg := {| last_telegram_update_id := 40; stop_mode := true |} in
  let results := [ {| update_id := 41; text := "Hola, que tal" |};
                   {| update_id := 43; text := "reset stop start info" |} ] in
  check_telegram_commands 10 [] true (PollOk results) reg ∅ =
  ([GetUpdates 41], Ok ({| last_telegram_update_id := 43; stop_mode := true |}, ∅)).
Proof.
  intros reg results.
  apply (unrecognised_messages_only_move_cursor 10 [] true results reg ∅).
  repeat constructor.
Defined.

(** ** What the decision engine commands, and when *)

Lemma comandos_procesar_dispositivo ts temp_ext inv hor reg (estados : gmap string Mem) dev :
  commands (trace (procesar_dispositivo ts temp_ext inv hor reg estados dev)) =
  if en_bloqueo ts (mem_en_decision ts estados dev) then []
  else commands (trace (motor_decision temp_ext inv hor reg dev (objetivo dev)
                          (mem_en_decision ts estados dev))).
Proof.
  rewrite procesar_dispositivo_eq. cbv zeta.
  destruct (en_bloqueo ts (mem_en_decision ts estados dev));
    cbn [trace fst]; unfold commands; rewrite List.filter_app;
    destruct (manual_detectado ts (recuperar estados dev) dev); reflexivity.
Qed.

Lemma en_comandos (t : list Event) n props ok :
  In (DevSet n props ok) t <-> In (DevSet n props ok) (commands t).
Proof.
  unfold commands. rewrite List.filter_In. split; [intros H; split; [exact H|reflexivity]|].
  intros [H _]. exact H.
Qed.

(** The decision engine's commands, rule by rule. *)
Lemma comandos_motor_decision temp_ext inv hor reg dev obj mem :
  commands (trace (motor_decision temp_ext inv hor reg dev obj mem)) =
  if Qltb temp_ext UMBRAL_SEGURIDAD_FRIO
     || (negb inv && Qltb temp_ext UMBRAL_CORTE_VERANO)
     || stop_mode reg
     || (inv && negb hor)
  then (if power dev then [DevSet (name dev) props_apagar (negb (set_raises dev))] else [])
  else if inv && Qle_bool temp_ext UMBRAL_BUEN_TIEMPO_INVIERNO
          && (negb (power dev) || negb (Qeq_bool (target_temperature dev) obj))
  then [DevSet (name dev) (props_calentar obj) (negb (set_raises dev))]
  else [].
Proof.
  rewrite motor_decision_eq. unfold efecto_apagar, efecto_calentar.
  destruct (Qltb temp_ext UMBRAL_SEGURIDAD_FRIO), inv, hor,
    (Qltb temp_ext UMBRAL_CORTE_VERANO), (stop_mode reg),
    (Qle_bool temp_ext UMBRAL_BUEN_TIEMPO_INVIERNO), (power dev),
    (Qeq_bool (target_temperature dev) obj), (set_raises dev);
    reflexivity.
Qed.

Lemma calentar_solo_por_apoyo ts temp_ext inv hor reg
    (estados : gmap string Mem) dev n props ok :
  In (DevSet n props ok)
     (trace (procesar_dispositivo ts temp_ext inv hor reg estados dev)) ->
  set_power props = Some true ->
  n = name dev /\ props = props_calentar (objetivo dev) /\ ok = negb (set_raises dev) /\
  en_bloqueo ts (mem_en_decision ts estados dev) = false /\
  inv = true /\ hor = true /\ stop_mode reg = false /\
  UMBRAL_SEGURIDAD_FRIO <= temp_ext /\ temp_ext <= UMBRAL_BUEN_TIEMPO_INVIERNO /\
  (power dev = false \/ ~ target_temperature dev == objetivo dev).
Proof.
  intros Hin Hon. apply en_comandos in Hin.
  rewrite comandos_procesar_dispositivo in Hin.
  destruct (en_bloqueo ts (mem_en_decision ts estados dev)); [destruct Hin|].
  rewrite comandos_motor_decision in Hin.
  destruct (Qltb temp_ext UMBRAL_SEGURIDAD_FRIO) eqn:Hseg.
  { cbn [orb] in Hin. destruct (power dev); [|destruct Hin].
    destruct Hin as [Hin|[]]. injection Hin as <- <- <-. discriminate. }
  destruct (negb inv && Qltb temp_ext UMBRAL_CORTE_VERANO || stop_mode reg
            || inv && negb hor) eqn:Hoff.
  { cbn [orb] in Hin. rewrite Hoff in Hin. destruct (power dev); [|destruct Hin].
    destruct Hin as [Hin|[]]. injection Hin as <- <- <-. discriminate. }
  cbn [orb] in Hin. rewrite Hoff in Hin.
  destruct (inv && Qle_bool temp_ext UMBRAL_BUEN_TIEMPO_INVIERNO
            && (negb (power dev)
                || negb (Qeq_bool (target_temperature dev) (objetivo dev)))) eqn:Hon5;
    [|destruct Hin].
  destruct Hin as [Hin|[]]. injection Hin as <- <- <-.
  apply andb_true_iff in Hon5. destruct Hon5 as [Hon5 Hdif].
  apply andb_true_iff in Hon5. destruct Hon5 as [-> Hbuen].
  apply orb_false_iff in Hoff. destruct Hoff as [Hoff Hnoche].
  apply orb_false_iff in Hoff. destruct Hoff as [_ Hstop].
  cbn [andb] in Hnoche. apply negb_false_iff in Hnoche.
  repeat split; try assumption; try reflexivity.
  - apply Qltb_ge. exact Hseg.
  - apply Qle_bool_iff. exact Hbuen.
  - apply orb_true_iff in Hdif. destruct Hdif as [Hp|Ht].
    + left. apply negb_true_iff. exact Hp.
    + right. intros Heq. apply Qeq_bool_iff in Heq. rewrite Heq in Ht. discriminate.
Qed.

(** X3: a command that switches a unit on is only ever issued by the
    winter comfort rule: it is addressed to the unit of the iteration,
    sets heating mode and the unit's objective, and is issued only when
    the unit is not locked out, it is winter, inside active hours, stop
    mode is off, the outdoor temperature lies between the safety and the
    winter-comfort thresholds, and the unit is off or at another
    target. *)
Theorem heating_only_by_comfort_rule ts temp_ext inv hor reg
    (estados : gmap string Mem) dev n props ok :
  In (DevSet n props ok)
     (trace (procesar_dispositivo ts temp_ext inv hor reg estados dev)) ->
  set_power props = Some true ->
  n = name dev /\ props = props_calentar (objetivo dev) /\ ok = negb (set_raises dev) /\
  en_bloqueo ts (mem_en_decision ts estados dev) = false /\
  inv = true /\ hor = true /\ stop_mode reg = false /\
  UMBRAL_SEGURIDAD_FRIO <= temp_ext /\ temp_ext <= UMBRAL_BUEN_TIEMPO_INVIERNO /\
  (power dev = false \/ ~ target_temperature dev == objetivo dev).
Proof. apply calentar_solo_por_apoyo. Qed.

Lemma heating_only_by_comfort_rule_witness :
  let dev := {| name := "Dormitorio"; power := false; target_temperature := 20;
                set_raises := false |} in
  let reg := {| last_telegram_update_id := 0; stop_mode := false |} in
  In (DevSet "Dormitorio" (props_calentar 21) true)
     (trace (procesar_dispositivo 1700000000 18 true true reg ∅ dev)) /\
  UMBRAL_SEGURIDAD_FRIO <= 18 /\ 18 <= UMBRAL_BUEN_TIEMPO_INVIERNO.
Proof.
  intros dev reg.
  assert (Hin : In (DevSet "Dormitorio" (props_calentar 21) true)
                   (trace (procesar_dispositivo 1700000000 18 true true reg ∅ dev)))
    by (vm_compute; do 2 right; left; reflexivity).
  destruct (heating_only_by_comfort_rule 1700000000 18 true true reg ∅ dev
              _ _ _ Hin eq_refl) as (_ & _ & _ & _ & _ & _ & _ & H1 & H2 & _).
  split; [exact Hin|]. split; assumption.
Defined.

(** X4: a switch-off command is only ever issued to a unit that is
    observed on and not locked out, under one of the four switch-off
    rules (safety, summer cutoff, stop mode, winter night); conversely a
    unit that is on and not locked out gets exactly that one command
    whenever one of the four conditions holds. *)
Theorem switch_off_characterisation ts temp_ext inv hor reg
    (estados : gmap string Mem) dev :
  let p := procesar_dispositivo ts temp_ext inv hor reg estados dev in
  let motivo := temp_ext < UMBRAL_SEGURIDAD_FRIO \/
                (inv = false /\ temp_ext < UMBRAL_CORTE_VERANO) \/
                stop_mode reg = true \/
                (inv = true /\ hor = false) in
  (forall n props ok,
      In (DevSet n props ok) (trace p) -> set_power props = Some false ->
      n = name dev /\ props = props_apagar /\ ok = negb (set_raises dev) /\
      power dev = true /\
      en_bloqueo ts (mem_en_decision ts estados dev) = false /\ motivo) /\
  (en_bloqueo ts (mem_en_decision ts estados dev) = false ->
   power dev = true -> motivo ->
   commands (trace p) = [DevSet (name dev) props_apagar (negb (set_raises dev))]).
Proof.
  cbv zeta.
  assert (Hmot : Qltb temp_ext UMBRAL_SEGURIDAD_FRIO
                 || (negb inv && Qltb temp_ext UMBRAL_CORTE_VERANO)
                 || stop_mode reg || (inv && negb hor) = true <->
                 temp_ext < UMBRAL_SEGURIDAD_FRIO \/
                 (inv = false /\ temp_ext < UMBRAL_CORTE_VERANO) \/
                 stop_mode reg = true \/ (inv = true /\ hor = false)).
  { rewrite !orb_true_iff, !andb_true_iff, !negb_true_iff, !Qltb_lt. tauto. }
  split.
  - intros n props ok Hin Hoff. apply en_comandos in Hin.
    rewrite comandos_procesar_dispositivo in Hin.
    destruct (en_bloqueo ts (mem_en_decision ts estados dev)); [destruct Hin|].
    rewrite comandos_motor_decision in Hin.
    destruct (Qltb temp_ext UMBRAL_SEGURIDAD_FRIO
              || (negb inv && Qltb temp_ext UMBRAL_CORTE_VERANO)
              || stop_mode reg || (inv && negb hor)) eqn:E.
    + destruct (power dev); [|destruct Hin].
      destruct Hin as [Hin|[]]. injection Hin as <- <- <-.
      repeat split. apply Hmot. reflexivity.
    + destruct (inv && Qle_bool temp_ext UMBRAL_BUEN_TIEMPO_INVIERNO
                && (negb (power dev)
                    || negb (Qeq_bool (target_temperature dev) (objetivo dev))));
        [|destruct Hin].
      destruct Hin as [Hin|[]]. injection Hin as <- <- <-. discriminate.
  - intros Hlibre Hon Hm. rewrite comandos_procesar_dispositivo, Hlibre,
      comandos_motor_decision, (proj2 Hmot Hm), Hon. reflexivity.
Qed.

Lemma switch_off_characterisation_witness :
  let dev := {| name := "Jimena"; power := true; target_temperature := 23;
                set_raises := false |} in
  let reg := {| last_telegram_update_id := 0; stop_mode := false |} in
  commands (trace (procesar_dispositivo 1700000000 15 false true reg ∅ dev)) =
  [DevSet "Jimena" props_apagar true].
Proof.
  intros dev reg.
  apply (proj2 (switch_off_characterisation 1700000000 15 false true reg ∅ dev)).
  - vm_compute; reflexivity.
  - reflexivity.
  - right; left. split; [reflexivity | vm_compute; reflexivity].
Defined.

(** X5: with stop mode off and the outdoor temperature not below the
    safety threshold, a winter cycle inside active hours with the outdoor
    temperature above the winter-comfort threshold, and a summer cycle
    with the outdoor temperature at or above the summer cutoff, issue no
    command at all, whatever the unit's state, memory and lockout; the
    stored memory is the refreshed one. *)
Theorem no_action_in_mild_conditions ts temp_ext inv hor reg
    (estados : gmap string Mem) dev :
  UMBRAL_SEGURIDAD_FRIO <= temp_ext ->
  stop_mode reg = false ->
  (inv = true /\ hor = true /\ UMBRAL_BUEN_TIEMPO_INVIERNO < temp_ext) \/
  (inv = false /\ UMBRAL_CORTE_VERANO <= temp_ext) ->
  commands (trace (procesar_dispositivo ts temp_ext inv hor reg estados dev)) = [] /\
  result (procesar_dispositivo ts temp_ext inv hor reg estados dev) =
    Ok (<[name dev := mem_en_decision ts estados dev]> estados).
Proof.
  intros Hseg Hstop Hcaso.
  apply Qltb_ge in Hseg.
  rewrite comandos_procesar_dispositivo, procesar_dispositivo_eq. cbv zeta.
  destruct (en_bloqueo ts (mem_en_decision ts estados dev)); [split; reflexivity|].
  rewrite comandos_motor_decision, motor_decision_eq, Hseg, Hstop.
  destruct Hcaso as [(-> & -> & Hb)|(-> & Hv)].
  - assert (Hb' : Qle_bool temp_ext UMBRAL_BUEN_TIEMPO_INVIERNO = false).
    { apply not_true_iff_false. rewrite Qle_bool_iff. apply Qlt_not_le. exact Hb. }
    rewrite Hb'. split; reflexivity.
  - apply Qltb_ge in Hv. rewrite Hv. split; reflexivity.
Qed.

Lemma no_action_in_mild_conditions_witness :
  let dev := {| name := "Elisa"; power := true; target_temperature := 26;
                set_raises := false |} in
  let reg := {| last_telegram_update_id := 0; stop_mode := false |} in
  commands (trace (procesar_dispositivo 1700000000 20 true true reg ∅ dev)) = [] /\
  commands (trace (procesar_dispositivo 1700000000 25 false false reg ∅ dev)) = [].
Proof.
  intros dev reg. split.
  - apply (no_action_in_mild_conditions 1700000000 20 true true reg ∅ dev).
    + vm_compute; discriminate.
    + reflexivity.
    + left. split; [reflexivity|]. split; [reflexivity | vm_compute; reflexivity].
  - apply (no_action_in_mild_conditions 1700000000 25 false false reg ∅ dev).
    + vm_compute; discriminate.
    + reflexivity.
    + right. split; [reflexivity | vm_compute; discriminate].
Defined.

(** ** Memory and notifications after an iteration *)

Lemma notificaciones_cabecera ts temp_ext (estados : gmap string Mem) dev (t : list Event) :
  length (notifications
            ((Log (LDispositivo (name dev) (power dev) (target_temperature dev)
                     (objetivo dev))
              :: (if manual_detectado ts (recuperar estados dev) dev then
                    [Log (LManualDetectado (name dev));
                     EnviarTelegram (CambioManual (name dev) (target_temperature dev))
                       temp_ext]
                  else [])) ++ t)) =
  ((if manual_detectado ts (recuperar estados dev) dev then 1 else 0)
   + length (notifications t))%nat.
Proof.
  unfold notifications. rewrite List.filter_app, length_app.
  destruct (manual_detectado ts (recuperar estados dev) dev); reflexivity.
Qed.

(** X6: an iteration that returns leaves in the store, for its unit, a
    memory that records what the unit is now expected to show: the
    observed power and target when no command was issued, and the
    commanded power (and target, for a heating command) when a command
    was issued, which then succeeded.  The lockout is the one decided by
    the manual check.  The iteration sends one notification per command,
    plus one when a manual change was detected. *)
Theorem memory_records_command ts temp_ext inv hor reg
    (estados est' : gmap string Mem) dev :
  let p := procesar_dispositivo ts temp_ext inv hor reg estados dev in
  result p = Ok est' ->
  exists m',
    est' = <[name dev := m']> estados /\
    bloqueo_hasta m' = bloqueo_hasta (mem_en_decision ts estados dev) /\
    ((commands (trace p) = [] /\
      mem_power m' = power dev /\
      mem_target_temperature m' = target_temperature dev) \/
     (exists props,
         commands (trace p) = [DevSet (name dev) props true] /\
         mem_power m' = default (power dev) (set_power props) /\
         mem_target_temperature m' =
           default (target_temperature dev) (set_target_temperature props))) /\
    length (notifications (trace p)) =
      ((if manual_detectado ts (recuperar estados dev) dev then 1 else 0)
       + length (commands (trace p)))%nat.
Proof.
  cbv zeta. rewrite comandos_procesar_dispositivo, procesar_dispositivo_eq. cbv zeta.
  destruct (en_bloqueo ts (mem_en_decision ts estados dev)) eqn:Hb.
  - cbn [result trace fst snd]. intros H. injection H as <-.
    exists (mem_en_decision ts estados dev).
    split; [reflexivity|]. split; [reflexivity|]. split.
    + left. repeat split.
    + rewrite notificaciones_cabecera. reflexivity.
  - cbn [result trace fst snd]. rewrite notificaciones_cabecera.
    rewrite comandos_motor_decision, motor_decision_eq.
    unfold efecto_apagar, efecto_calentar.
    assert (Hmp : mem_power (mem_en_decision ts estados dev) = power dev)
      by reflexivity.
    assert (Hmt : mem_target_temperature (mem_en_decision ts estados dev)
                  = target_temperature dev) by reflexivity.
    revert Hmp Hmt. generalize (mem_en_decision ts estados dev). intros mem.
    destruct (Qltb temp_ext UMBRAL_SEGURIDAD_FRIO), inv, hor,
      (Qltb temp_ext UMBRAL_CORTE_VERANO), (stop_mode reg),
      (Qle_bool temp_ext UMBRAL_BUEN_TIEMPO_INVIERNO), (power dev),
      (Qeq_bool (target_temperature dev) (objetivo dev)), (set_raises dev);
      cbn [result trace fst snd andb orb negb]; intros Hmp Hmt H; try discriminate;
      injection H as <-; eexists; (split; [reflexivity|]); (split; [reflexivity|]);
      (split; [|reflexivity]);
      first [ left; repeat split; first [reflexivity | assumption]
            | right; eexists; repeat split; first [reflexivity | assumption] ].
Qed.

Lemma memory_records_command_witness :
  let dev := {| name := "Dormitorio"; power := false; target_temperature := 20;
                set_raises := false |} in
  let reg := {| last_telegram_update_id := 0; stop_mode := false |} in
  let p := procesar_dispositivo 1700000000 18 true true reg ∅ dev in
  exists est' m',
    result p = Ok est' /\ est' = <[name dev := m']> ∅ /\
    length (notifications (trace p)) = 1%nat.
Proof.
  intros dev reg p. subst p.
  set (p := procesar_dispositivo 1700000000 18 true true reg ∅ dev).
  assert (Hr : result p = Ok {[ "Dormitorio"%string :=
                                  {| mem_power := true; mem_target_temperature := 21;
                                     bloqueo_hasta := 0 |} ]})
    by (vm_compute; reflexivity).
  destruct (memory_records_command 1700000000 18 true true reg ∅ _ dev Hr)
    as (m' & He & _ & _ & Hn).
  eexists _, m'. split; [exact Hr|]. split; [exact He|].
  cbv zeta in Hn. fold p in Hn. rewrite Hn. vm_compute. reflexivity.
Defined.

(** X7: an iteration that raises has issued exactly one command, the one
    that failed, and has sent no notification at all: an action that did
    not take place is never announced. *)
Theorem failed_command_is_silent ts temp_ext inv hor reg
    (estados : gmap string Mem) dev :
  let p := procesar_dispositivo ts temp_ext inv hor reg estados dev in
  result p = Raised ->
  set_raises dev = true /\
  notifications (trace p) = [] /\
  exists props, commands (trace p) = [DevSet (name dev) props false].
Proof.
  cbv zeta. rewrite comandos_procesar_dispositivo, procesar_dispositivo_eq. cbv zeta.
  destruct (en_bloqueo ts (mem_en_decision ts estados dev)) eqn:Hb;
    cbn [result trace fst snd]; [discriminate|].
  rewrite (sin_bloqueo_sin_manual _ _ _ Hb).
  rewrite comandos_motor_decision, motor_decision_eq.
  unfold efecto_apagar, efecto_calentar.
  generalize (mem_en_decision ts estados dev). intros mem.
  destruct (Qltb temp_ext UMBRAL_SEGURIDAD_FRIO), inv, hor,
    (Qltb temp_ext UMBRAL_CORTE_VERANO), (stop_mode reg),
    (Qle_bool temp_ext UMBRAL_BUEN_TIEMPO_INVIERNO), (power dev),
    (Qeq_bool (target_temperature dev) (objetivo dev)), (set_raises dev);
    cbn [result trace fst snd andb orb negb]; intros H; try discriminate;
    (split; [reflexivity|]); (split; [reflexivity|]); eexists; reflexivity.
Qed.

Lemma failed_command_is_silent_witness :
  let dev := {| name := "Salón"; power := true; target_temperature := 20;
                set_raises := true |} in
  let reg := {| last_telegram_update_id := 0; stop_mode := true |} in
  notifications (trace (procesar_dispositivo 1700000000 12 true true reg ∅ dev)) = [].
Proof.
  intros dev reg.
  exact (proj1 (proj2 (failed_command_is_silent 1700000000 12 true true reg ∅ dev
                         eq_refl))).
Defined.

(** ** The device loop as a whole *)

Lemma bind_trace {A B} (m : M A) (k : A -> M B) :
  trace (m ≫= k) =
  trace m ++ match result m with Ok a => trace (k a) | Raised => [] end.
Proof.
  destruct m as [t [a|]].
  - rewrite bind_pair_ok. reflexivity.
  - unfold mbind, M_bind. cbn [trace result fst snd]. rewrite app_nil_r. reflexivity.
Qed.

Lemma comandos_de_un_paso ts temp_ext inv hor reg (estados : gmap string Mem) dev :
  commands (trace (procesar_dispositivo ts temp_ext inv hor reg estados dev)) = [] \/
  exists props ok,
    commands (trace (procesar_dispositivo ts temp_ext inv hor reg estados dev)) =
    [DevSet (name dev) props ok].
Proof.
  rewrite comandos_procesar_dispositivo.
  destruct (en_bloqueo ts (mem_en_decision ts estados dev)); [left; reflexivity|].
  rewrite comandos_motor_decision.
  repeat match goal with
         | |- context [if ?b then _ else _] => destruct b
         end; first [left; reflexivity | right; eexists _, _; reflexivity].
Qed.

Lemma unidades_de_comandos (t : list Event) :
  unidades_comandadas (commands t) = unidades_comandadas t.
Proof.
  induction t as [|ev t IH]; [reflexivity|].
  destruct ev; cbn [commands List.filter is_command unidades_comandadas flat_map app];
    fold (commands t); fold (unidades_comandadas t);
    fold (unidades_comandadas (commands t)); rewrite IH; reflexivity.
Qed.

Lemma unidades_comandadas_app (t1 t2 : list Event) :
  unidades_comandadas (t1 ++ t2) = unidades_comandadas t1 ++ unidades_comandadas t2.
Proof. apply flat_map_app. Qed.

(** The units commanded by the loop form a subsequence of the listed
    units. *)
Lemma comandos_bucle_sublist ts temp_ext inv hor reg devices :
  forall estados : gmap string Mem,
    sublist (unidades_comandadas
               (trace (bucle_dispositivos ts temp_ext inv hor reg estados devices)))
            (map name devices).
Proof.
  induction devices as [|dev rest IH]; intros estados.
  - apply sublist_nil.
  - cbn [bucle_dispositivos map]. rewrite bind_trace, unidades_comandadas_app.
    set (p := procesar_dispositivo ts temp_ext inv hor reg estados dev).
    assert (Hresto : sublist (unidades_comandadas
                                match result p with
                                | Ok a => trace (bucle_dispositivos ts temp_ext inv hor
                                                   reg a rest)
                                | Raised => []
                                end) (map name rest)).
    { destruct (result p) as [est1|]; [apply IH | apply sublist_nil_l]. }
    rewrite <- (unidades_de_comandos (trace p)).
    destruct (comandos_de_un_paso ts temp_ext inv hor reg estados dev)
      as [Hp|(props & ok & Hp)]; fold p in Hp; rewrite Hp.
    + apply sublist_cons. exact Hresto.
    + apply sublist_skip. exact Hresto.
Qed.

Lemma comandos_bucle_acotados ts temp_ext inv hor reg devices :
  forall estados : gmap string Mem,
    let b := bucle_dispositivos ts temp_ext inv hor reg estados devices in
    (length (commands (trace b)) <= length devices)%nat /\
    (forall n props ok, In (DevSet n props ok) (trace b) -> In n (map name devices)).
Proof.
  induction devices as [|dev rest IH]; intros estados; cbv zeta.
  - split; [apply Nat.le_refl | intros n props ok []].
  - cbn [bucle_dispositivos]. rewrite bind_trace.
    set (p := procesar_dispositivo ts temp_ext inv hor reg estados dev).
    assert (Hp : commands (trace p) = [] \/
                 exists props ok, commands (trace p) = [DevSet (name dev) props ok])
      by apply comandos_de_un_paso.
    assert (Hresto : (length (commands
                               match result p with
                               | Ok a => trace (bucle_dispositivos ts temp_ext inv hor
                                                  reg a rest)
                               | Raised => []
                               end) <= length rest)%nat /\
                     forall n props ok,
                       In (DevSet n props ok)
                          match result p with
                          | Ok a => trace (bucle_dispositivos ts temp_ext inv hor
                                             reg a rest)
                          | Raised => []
                          end -> In n (map name rest)).
    { destruct (result p) as [est1|].
      - apply (IH est1).
      - split; [apply Nat.le_0_l | intros n props ok []]. }
    destruct Hresto as [Hlen Hnames]. split.
    + unfold commands in *. rewrite List.filter_app, length_app. cbn [length].
      destruct Hp as [->|(props & ok & ->)]; cbn [length]; lia.
    + intros n props ok Hin. apply in_app_or in Hin. destruct Hin as [Hin|Hin].
      * left. apply en_comandos in Hin.
        destruct Hp as [Hp|(props' & ok' & Hp)]; rewrite Hp in Hin.
        -- destruct Hin.
        -- destruct Hin as [Hin|[]]. congruence.
      * right. exact (Hnames n props ok Hin).
Qed.

(** X8: over the whole device loop there is at most one command per
    listed unit.  The units commanded, call by call, are a subsequence of
    the listed units: every call is matched, in order, by a listed entry
    of its own, so an entry is commanded at most once and a unit that is
    not listed never is.  When the listed names are distinct no unit is
    commanded twice.  The number of commands is therefore at most the
    number of listed units. *)
Theorem one_command_per_listed_unit ts temp_ext inv hor reg devices :
  forall estados : gmap string Mem,
    let b := bucle_dispositivos ts temp_ext inv hor reg estados devices in
    sublist (unidades_comandadas (trace b)) (map name devices) /\
    (NoDup (map name devices) -> NoDup (unidades_comandadas (trace b))) /\
    (length (commands (trace b)) <= length devices)%nat /\
    (forall n props ok, In (DevSet n props ok) (trace b) -> In n (map name devices)).
Proof.
  intros estados b.
  pose proof (comandos_bucle_sublist ts temp_ext inv hor reg devices estados) as Hsub.
  fold b in Hsub.
  split; [exact Hsub|].
  split; [intros Hnd; exact (sublist_NoDup _ _ Hnd Hsub)|].
  exact (comandos_bucle_acotados ts temp_ext inv hor reg devices estados).
Qed.

(** Under the safety cutoff the running units are switched off and the
    idle one is left alone: the units commanded are the listed ones
    without it, in the listed order. *)
Example comandos_subsecuencia :
  let d n p := {| name := n; power := p; target_temperature := 21;
                  set_raises := false |} in
  let reg := {| last_telegram_update_id := 0; stop_mode := false |} in
  unidades_comandadas
    (trace (bucle_dispositivos 1700000000 (-3) true true reg ∅
              [d "Salón" true; d "Dormitorio" false; d "Jimena" true])) =
  ["Salón"; "Jimena"]%string.
Proof. vm_compute. reflexivity. Qed.

(** ** A whole cycle, part by part *)

Lemma bind_pair_raised {A B} (t : list Event) (k : A -> M B) :
  ((t, Raised) : M A) ≫= k = (t, Raised).
Proof. reflexivity. Qed.

Lemma main_partes e temp_ext devices :
  clima e = Some temp_ext ->
  melcloud e = Some devices ->
  let c := check_telegram_commands temp_ext devices (en_horario_de (reloj e))
             (telegram e) (registro_inicial (registro_json e)) (estados_json e) in
  let b := bucle_del_ciclo e temp_ext devices in
  main e =
  ([Log LInicio; Log (LTempExterior temp_ext)]
     ++ aviso_caldera (es_invierno_de (reloj e)) temp_ext
     ++ trace c ++ trace b ++
     match result b with
     | Ok est2 => cola_guardado (escrituras e) est2 (registro_del_ciclo e) temp_ext
     | Raised => []
     end,
   match result b with
   | Ok _ => if csv_raises (escrituras e) then Raised else Ok tt
   | Raised => Raised
   end).
Proof.
  intros Hclima Hmel. cbv zeta.
  unfold main, bucle_del_ciclo, registro_del_ciclo, estados_del_ciclo, aviso_caldera.
  rewrite bind_emit, Hclima, bind_emit, Hmel. cbn [trace result fst snd].
  set (aviso := if es_invierno_de (reloj e) && Qle_bool temp_ext 1
                then emit (Log LAvisoCaldera);; emit (EnviarTelegram AlertaCaldera temp_ext)
                else mret tt).
  assert (Haviso : aviso =
                   (if es_invierno_de (reloj e) && Qle_bool temp_ext 1
                    then [Log LAvisoCaldera; EnviarTelegram AlertaCaldera temp_ext]
                    else [], Ok tt)).
  { subst aviso. destruct (es_invierno_de (reloj e) && Qle_bool temp_ext 1); reflexivity. }
  rewrite Haviso, bind_pair_ok, bind_ret. clear aviso Haviso.
  pose proof (check_telegram_commands_resultado temp_ext devices
                (en_horario_de (reloj e)) (telegram e)
                (registro_inicial (registro_json e)) (estados_json e)) as Hc.
  destruct (check_telegram_commands temp_ext devices (en_horario_de (reloj e))
              (telegram e) (registro_inicial (registro_json e)) (estados_json e))
    as [tc rc].
  cbn [trace result fst snd] in *. subst rc. rewrite bind_pair_ok.
  destruct (bucle_dispositivos (ahora_ts (reloj e)) temp_ext (es_invierno_de (reloj e))
              (en_horario_de (reloj e))
              (registro_tras_poll (telegram e) (registro_inicial (registro_json e)))
              (if reset_recibido (telegram e)
               then reset_bloqueo <$> estados_json e else estados_json e) devices)
    as [tb [est2|]].
  - rewrite bind_pair_ok, guardado_final_eq. cbn [trace result fst snd app].
    reflexivity.
  - rewrite bind_pair_raised. cbn [trace result fst snd app].
    rewrite app_nil_r. reflexivity.
Qed.

Lemma aviso_caldera_callado inv temp_ext : Forall callado (aviso_caldera inv temp_ext).
Proof.
  unfold aviso_caldera. destruct (inv && Qle_bool temp_ext 1); repeat constructor.
Qed.

Lemma weather_failure_sin_escrituras e :
  clima e = None -> persisted (run_safe e) = [].
Proof.
  intros H. pose proof (main_shape e) as Hs. rewrite H in Hs.
  unfold run_safe. rewrite Hs. reflexivity.
Qed.

(** Every run either makes no write call or reaches the final writes. *)
Lemma run_safe_casos e :
  persisted (run_safe e) = [] \/
  exists temp_ext devices est2 t,
    clima e = Some temp_ext /\
    melcloud e = Some devices /\
    result (bucle_del_ciclo e temp_ext devices) = Ok est2 /\
    run_safe e = t ++ cola_guardado (escrituras e) est2 (registro_del_ciclo e) temp_ext
                   ++ (if csv_raises (escrituras e) then [Log LFatalError] else []) /\
    Forall limpio t.
Proof.
  destruct (clima e) as [temp_ext|] eqn:Hclima.
  2:{ left. apply (weather_failure_sin_escrituras e Hclima). }
  destruct (melcloud e) as [devices|] eqn:Hmel.
  2:{ left. pose proof (main_shape e) as Hs. rewrite Hclima, Hmel in Hs.
      destruct Hs as [Hr Hc]. unfold run_safe. rewrite (M_eta (main e)), Hr.
      rewrite persisted_app, (limpio_persisted _ (Forall_callado_limpio _ Hc)).
      reflexivity. }
  pose proof (main_partes e temp_ext devices Hclima Hmel) as Hm. cbv zeta in Hm.
  pose proof (proj1 (check_telegram_commands_spec temp_ext devices
                       (en_horario_de (reloj e)) (telegram e)
                       (registro_inicial (registro_json e)) (estados_json e))) as Hc.
  pose proof (traza_ok_bucle_dispositivos (ahora_ts (reloj e)) temp_ext
                (es_invierno_de (reloj e)) (en_horario_de (reloj e))
                (registro_del_ciclo e) devices (estados_del_ciclo e)) as Hb.
  fold (bucle_del_ciclo e temp_ext devices) in Hb. unfold traza_ok in Hb.
  assert (Hpre : Forall limpio
                   ([Log LInicio; Log (LTempExterior temp_ext)]
                      ++ aviso_caldera (es_invierno_de (reloj e)) temp_ext
                      ++ trace (check_telegram_commands temp_ext devices
                                  (en_horario_de (reloj e)) (telegram e)
                                  (registro_inicial (registro_json e))
                                  (estados_json e)))).
  { apply Forall_callado_limpio. apply Forall_app. split; [repeat constructor|].
    apply Forall_app. split; [apply aviso_caldera_callado | exact Hc]. }
  unfold run_safe. rewrite Hm. clear Hm.
  destruct (result (bucle_del_ciclo e temp_ext devices)) as [est2|] eqn:Hres.
  - right.
    exists temp_ext, devices, est2,
      (([Log LInicio; Log (LTempExterior temp_ext)]
          ++ aviso_caldera (es_invierno_de (reloj e)) temp_ext
          ++ trace (check_telegram_commands temp_ext devices
                      (en_horario_de (reloj e)) (telegram e)
                      (registro_inicial (registro_json e)) (estados_json e)))
         ++ trace (bucle_del_ciclo e temp_ext devices)).
    split; [reflexivity|]. split; [reflexivity|]. split; [exact Hres|]. split.
    + destruct (csv_raises (escrituras e)); rewrite <- ?app_assoc, ?app_nil_r;
        reflexivity.
    + apply Forall_app. split; assumption.
  - left. destruct Hb as (t & n & p & Heq & Ht). rewrite Heq.
    apply Forall_app in Hpre. destruct Hpre as [H1 H2].
    apply Forall_app in H2. destruct H2 as [H2 H3].
    rewrite !persisted_app, (limpio_persisted _ H1), (limpio_persisted _ H2),
      (limpio_persisted _ H3), (limpio_persisted _ Ht). reflexivity.
Qed.

Lemma en_persisted (t : list Event) (e : Event) :
  In e t -> is_persist e = true -> In e (persisted t).
Proof. intros H1 H2. unfold persisted. apply List.filter_In. split; assumption. Qed.

(** What a run has written, read back from its trace. *)
Lemma escrituras_de_run_safe e (ev : Event) :
  In ev (run_safe e) -> is_persist ev = true ->
  exists temp_ext devices est2,
    clima e = Some temp_ext /\
    melcloud e = Some devices /\
    result (bucle_del_ciclo e temp_ext devices) = Ok est2 /\
    (ev = SaveState est2 \/ ev = SaveRegistro (registro_del_ciclo e) \/
     ev = GuardarResumenCsv temp_ext).
Proof.
  intros Hin Hp.
  destruct (run_safe_casos e) as [Hnada|(temp_ext & devices & est2 & t & H1 & H2 & H3 & H4 & H5)].
  - pose proof (en_persisted _ _ Hin Hp) as H. rewrite Hnada in H. destruct H.
  - exists temp_ext, devices, est2. repeat (split; [assumption|]).
    rewrite H4 in Hin. apply in_app_or in Hin. destruct Hin as [Hin|Hin].
    + pose proof (limpio_no_persist _ _ H5 Hin). congruence.
    + apply in_app_or in Hin. destruct Hin as [Hin|Hin].
      * exact (cola_guardado_escrituras _ _ _ _ _ Hin Hp).
      * destruct (csv_raises (escrituras e)); simpl in Hin;
          [destruct Hin as [<-|[]]; discriminate | destruct Hin].
Qed.

(** X9: the three end-of-cycle write calls are made together or not at
    all.  A run either makes none of them, or it has read the weather,
    processed every listed unit without a failed command, and then calls
    [save_json] on the memory store, [save_json] on the registry and
    [guardar_resumen_csv], in that order.  A [save_json] that fails is
    logged and does not stop the writes after it; if
    [guardar_resumen_csv] raises, the closing line is skipped and the
    top-level handler logs the failure; otherwise the closing line ends
    the run.  Whether a call managed to write is thus not all or
    nothing; that the calls are attempted is. *)
Theorem write_calls_all_or_none e :
  persisted (run_safe e) = [] \/
  exists t temp_ext devices est2,
    run_safe e =
      t ++ [SaveState est2]
        ++ (if save_state_falla (escrituras e)
            then [Log (LErrorGuardando STATE_FILE)] else [])
        ++ [SaveRegistro (registro_del_ciclo e)]
        ++ (if save_registro_falla (escrituras e)
            then [Log (LErrorGuardando LAST_ACTION_FILE)] else [])
        ++ [GuardarResumenCsv temp_ext]
        ++ [if csv_raises (escrituras e) then Log LFatalError else Log LFin] /\
    persisted t = [] /\
    (forall n p, ~ In (DevSet n p false) t) /\
    clima e = Some temp_ext /\
    melcloud e = Some devices /\
    result (bucle_del_ciclo e temp_ext devices) = Ok est2.
Proof.
  destruct (run_safe_casos e)
    as [Hnada|(temp_ext & devices & est2 & t & H1 & H2 & H3 & H4 & H5)];
    [left; exact Hnada|].
  right. exists t, temp_ext, devices, est2.
  split.
  { rewrite H4. unfold cola_guardado.
    destruct (csv_raises (escrituras e)); rewrite <- ?app_assoc; reflexivity. }
  split; [apply limpio_persisted; exact H5|].
  split; [intros n p; apply limpio_no_failed; exact H5|].
  repeat split; assumption.
Qed.

(** A run in which the store cannot be written and the history write
    raises: both remaining calls are still made. *)
Example escrituras_con_fallos :
  let e := {| registro_json := {| json_last_telegram_update_id := None;
                                  json_stop_mode := None |};
              estados_json := ∅;
              reloj := {| hour := 10; minute := 0; month := 7; weekday := 2;
                          ahora_ts := 1700000000 |};
              clima := Some 25;
              melcloud := Some [];
              telegram := NoBotToken;
              escrituras := {| save_state_falla := true; save_registro_falla := false;
                               csv_raises := true |} |} in
  run_safe e =
  [Log LInicio; Log (LTempExterior 25);
   SaveState ∅; Log (LErrorGuardando STATE_FILE);
   SaveRegistro {| last_telegram_update_id := 0; stop_mode := false |};
   GuardarResumenCsv 25; Log LFatalError].
Proof. vm_compute. reflexivity. Qed.

(** X10: when MELCloud cannot be reached (login, listing or refresh
    raises) after the weather was read, the run consists of the start
    line, the temperature line, the boiler warning if it is due, and the
    fatal-error line: Telegram is not polled, so no directive is consumed
    and the cursor stays where it was, and nothing is written. *)
Theorem melcloud_failure_trace e temp_ext :
  clima e = Some temp_ext ->
  melcloud e = None ->
  run_safe e =
  [Log LInicio; Log (LTempExterior temp_ext)]
    ++ aviso_caldera (es_invierno_de (reloj e)) temp_ext
    ++ [Log LFatalError].
Proof.
  intros Hclima Hmel. unfold run_safe, main, aviso_caldera.
  rewrite bind_emit, Hclima, bind_emit, Hmel. cbn [trace result fst snd].
  destruct (es_invierno_de (reloj e) && Qle_bool temp_ext 1); reflexivity.
Qed.

Lemma melcloud_failure_trace_witness :
  let e := {| registro_json := {| json_last_telegram_update_id := Some 7%Z;
                                  json_stop_mode := Some false |};
              estados_json := ∅;
              reloj := {| hour := 3; minute := 15; month := 12; weekday := 6;
                          ahora_ts := 1700000000 |};
              clima := Some 0.5;
              melcloud := None;
              telegram := PollOk [ {| update_id := 8; text := "/stop" |} ];
              escrituras := escrituras_ok |} in
  run_safe e =
  [Log LInicio; Log (LTempExterior 0.5); Log LAvisoCaldera;
   EnviarTelegram AlertaCaldera 0.5; Log LFatalError].
Proof.
  intros e.
  exact (melcloud_failure_trace e 0.5 eq_refl eq_refl).
Defined.

Lemma stop_mode_foldl us :
  forall reg,
    Forall (fun u => str_in "/stop" (lower (text u)) = false /\
                     str_in "/start" (lower (text u)) = false) us ->
    stop_mode (foldl registro_tras_update reg us) = stop_mode reg.
Proof.
  induction us as [|u us IH]; intros reg H; [reflexivity|].
  apply Forall_cons in H. destruct H as [[Hs Ha] Hus].
  cbn [foldl]. rewrite (IH _ Hus).
  unfold registro_tras_update. cbv zeta. cbn [stop_mode]. rewrite Hs, Ha. reflexivity.
Qed.

(** X11: the registry a run saves is the loaded one (with its defaults)
    as the command processor left it; the device loop never changes it.
    In particular stop mode changes only by directive: when no polled
    message contains [/stop] or [/start], or the poll did not succeed,
    the saved stop mode is the loaded one ([False] when absent). *)
Theorem registry_saved_as_processed e r :
  In (SaveRegistro r) (run_safe e) ->
  r = registro_del_ciclo e /\
  ((forall results, telegram e = PollOk results ->
       Forall (fun u => str_in "/stop" (lower (text u)) = false /\
                        str_in "/start" (lower (text u)) = false) results) ->
   stop_mode r = default false (json_stop_mode (registro_json e))).
Proof.
  intros Hin.
  destruct (escrituras_de_run_safe e _ Hin eq_refl)
    as (temp_ext & devices & est2 & _ & _ & _ & [H|[H|H]]); try discriminate.
  injection H as ->. split; [reflexivity|].
  intros Hsin. unfold registro_del_ciclo, registro_tras_poll.
  destruct (telegram e) as [| | |results]; try reflexivity.
  rewrite (stop_mode_foldl _ _ (Hsin results eq_refl)). reflexivity.
Qed.

Lemma registry_saved_as_processed_witness :
  let e := {| registro_json := {| json_last_telegram_update_id := Some 7%Z;
                                  json_stop_mode := Some true |};
              estados_json := ∅;
              reloj := {| hour := 10; minute := 0; month := 1; weekday := 2;
                          ahora_ts := 1700000000 |};
              clima := Some 10;
              melcloud := Some [];
              telegram := PollOk [ {| update_id := 8; text := "/info" |} ];
              escrituras := escrituras_ok |} in
  let r := {| last_telegram_update_id := 8; stop_mode := true |} in
  In (SaveRegistro r) (run_safe e) /\
  r = registro_del_ciclo e /\
  stop_mode r = default false (json_stop_mode (registro_json e)).
Proof.
  intros e r.
  assert (Hin : In (SaveRegistro r) (run_safe e))
    by (vm_compute; do 5 right; left; reflexivity).
  destruct (registry_saved_as_processed e r Hin) as [Hr Hs].
  split; [exact Hin|]. split; [exact Hr|].
  apply Hs. intros results Hres. injection Hres as <-.
  repeat constructor.
Defined.

(** ** The store across the device loop *)

Lemma bucle_dispositivos_dom ts temp_ext inv hor reg devices :
  forall (estados est' : gmap string Mem),
    result (bucle_dispositivos ts temp_ext inv hor reg estados devices) = Ok est' ->
    dom est' = dom estados ∪ list_to_set (map name devices).
Proof.
  induction devices as [|dev rest IH]; intros estados est'; cbn [bucle_dispositivos].
  - intros H. injection H as <-. cbn [map list_to_set].
    rewrite union_empty_r_L. reflexivity.
  - intros H. apply bind_result_ok in H. destruct H as (est1 & Hstep & Hrest).
    apply procesar_dispositivo_bloqueo in Hstep. destruct Hstep as (m1 & -> & _).
    rewrite (IH _ _ Hrest), dom_insert_L. cbn [map list_to_set].
    rewrite (comm_L (∪) {[name dev]} (dom estados)), <- (assoc_L (∪)). reflexivity.
Qed.

Lemma bucle_dispositivos_marco ts temp_ext inv hor reg devices :
  forall (estados est' : gmap string Mem) k,
    result (bucle_dispositivos ts temp_ext inv hor reg estados devices) = Ok est' ->
    ~ In k (map name devices) ->
    est' !! k = estados !! k.
Proof.
  induction devices as [|dev rest IH]; intros estados est' k; cbn [bucle_dispositivos].
  - intros H _. injection H as <-. reflexivity.
  - intros H Hk. apply bind_result_ok in H. destruct H as (est1 & Hstep & Hrest).
    apply procesar_dispositivo_bloqueo in Hstep. destruct Hstep as (m1 & -> & _).
    cbn [map] in Hk.
    rewrite (IH _ _ k Hrest); [|intros Hin; apply Hk; right; exact Hin].
    apply lookup_insert_ne. intros Heq. apply Hk. left. exact Heq.
Qed.

(** X12: the store a run saves holds an entry for every unit that had one
    when the cycle started and for every listed unit, and for no other
    name: entries are never dropped, and a unit seen for the first time
    gets its entry in that same cycle. *)
Theorem saved_store_domain e (est' : gmap string Mem) :
  In (SaveState est') (run_safe e) ->
  exists devices,
    melcloud e = Some devices /\
    dom est' = dom (estados_json e) ∪ list_to_set (map name devices).
Proof.
  intros Hin.
  destruct (escrituras_de_run_safe e _ Hin eq_refl)
    as (temp_ext & devices & est2 & _ & Hmel & Hres & [H|[H|H]]); try discriminate.
  injection H as ->. exists devices. split; [exact Hmel|].
  unfold bucle_del_ciclo in Hres.
  rewrite (bucle_dispositivos_dom _ _ _ _ _ _ _ _ Hres).
  unfold estados_del_ciclo. destruct (reset_recibido (telegram e)); [|reflexivity].
  rewrite dom_fmap_L. reflexivity.
Qed.

(** X13: the memory of a unit that is not in the list MELCloud returned
    is carried over to the saved store untouched, apart from its lockout
    being zeroed when a reset directive was received. *)
Theorem unlisted_units_keep_their_memory e (est' : gmap string Mem) devices k :
  In (SaveState est') (run_safe e) ->
  melcloud e = Some devices ->
  ~ In k (map name devices) ->
  est' !! k =
  (if reset_recibido (telegram e) then reset_bloqueo <$> estados_json e !! k
   else estados_json e !! k).
Proof.
  intros Hin Hmel Hk.
  destruct (escrituras_de_run_safe e _ Hin eq_refl)
    as (temp_ext & devices' & est2 & _ & Hmel' & Hres & [H|[H|H]]); try discriminate.
  injection H as ->. rewrite Hmel in Hmel'. injection Hmel' as <-.
  unfold bucle_del_ciclo in Hres.
  rewrite (bucle_dispositivos_marco _ _ _ _ _ _ _ _ k Hres Hk).
  unfold estados_del_ciclo. destruct (reset_recibido (telegram e)); [|reflexivity].
  apply lookup_fmap.
Qed.

Lemma saved_store_witness_env :
  let viejo := {| mem_power := true; mem_target_temperature := 19; bloqueo_hasta := 5000 |} in
  let e := {| registro_json := {| json_last_telegram_update_id := None;
                                  json_stop_mode := None |};
              estados_json := {[ "Buhardilla"%string := viejo ]};
              reloj := {| hour := 10; minute := 0; month := 7; weekday := 2;
                          ahora_ts := 1000 |};
              clima := Some 25;
              melcloud := Some [ {| name := "Salón"; power := false;
                                    target_temperature := 24; set_raises := false |} ];
              telegram := NoBotToken;
              escrituras := escrituras_ok |} in
  let est' : gmap string Mem :=
    <[ "Salón"%string := {| mem_power := false; mem_target_temperature := 24;
                            bloqueo_hasta := 0 |} ]>
      {[ "Buhardilla"%string := viejo ]} in
  In (SaveState est') (run_safe e).
Proof. vm_compute. do 3 right. left. reflexivity. Qed.

Lemma saved_store_domain_witness :
  let viejo := {| mem_power := true; mem_target_temperature := 19; bloqueo_hasta := 5000 |} in
  let e := {| registro_json := {| json_last_telegram_update_id := None;
                                  json_stop_mode := None |};
              estados_json := {[ "Buhardilla"%string := viejo ]};
              reloj := {| hour := 10; minute := 0; month := 7; weekday := 2;
                          ahora_ts := 1000 |};
              clima := Some 25;
              melcloud := Some [ {| name := "Salón"; power := false;
                                    target_temperature := 24; set_raises := false |} ];
              telegram := NoBotToken;
              escrituras := escrituras_ok |} in
  let est' : gmap string Mem :=
    <[ "Salón"%string := {| mem_power := false; mem_target_temperature := 24;
                            bloqueo_hasta := 0 |} ]>
      {[ "Buhardilla"%string := viejo ]} in
  exists devices,
    melcloud e = Some devices /\
    dom est' = dom (estados_json e) ∪ list_to_set (map name devices).
Proof.
  intros viejo e est'.
  exact (saved_store_domain e est' saved_store_witness_env).
Defined.

Lemma unlisted_units_keep_their_memory_witness :
  let viejo := {| mem_power := true; mem_target_temperature := 19; bloqueo_hasta := 5000 |} in
  let e := {| registro_json := {| json_last_telegram_update_id := None;
                                  json_stop_mode := None |};
              estados_json := {[ "Buhardilla"%string := viejo ]};
              reloj := {| hour := 10; minute := 0; month := 7; weekday := 2;
                          ahora_ts := 1000 |};
              clima := Some 25;
              melcloud := Some [ {| name := "Salón"; power := false;
                                    target_temperature := 24; set_raises := false |} ];
              telegram := NoBotToken;
              escrituras := escrituras_ok |} in
  let est' : gmap string Mem :=
    <[ "Salón"%string := {| mem_power := false; mem_target_temperature := 24;
                            bloqueo_hasta := 0 |} ]>
      {[ "Buhardilla"%string := viejo ]} in
  est' !! "Buhardilla"%string = Some viejo.
Proof.
  intros viejo e est'.
  apply (unlisted_units_keep_their_memory e est' _ "Buhardilla"%string
           saved_store_witness_env eq_refl).
  vm_compute. intros [H|[]]. discriminate.
Defined.

(** ** Season and active hours *)

(** X14: for a valid wall-clock time the active-hours flag holds exactly
    from 06:30 (included) to 23:00 (excluded), and the cycle is a summer
    cycle exactly in the months June to September. *)
Theorem active_hours_window r :
  (0 <= hour r <= 23)%Z ->
  (0 <= minute r <= 59)%Z ->
  (en_horario_de r = true <->
   ((hour r = 6 /\ 30 <= minute r) \/ (7 <= hour r <= 22))%Z) /\
  (es_invierno_de r = false <-> (6 <= month r <= 9)%Z).
Proof.
  intros Hh Hm. unfold en_horario_de, es_invierno_de, minutos. split.
  - rewrite andb_true_iff, Z.leb_le, Z.ltb_lt. lia.
  - rewrite orb_false_iff, !Z.leb_gt. lia.
Qed.

Lemma active_hours_window_witness :
  let r := {| hour := 22; minute := 59; month := 9; weekday := 0;
              ahora_ts := 1700000000 |} in
  en_horario_de r = true /\ es_invierno_de r = false.
Proof.
  intros r.
  destruct (active_hours_window r) as [Hh Hs]; [simpl; lia | simpl; lia |].
  split; [apply Hh; right; simpl; lia | apply Hs; simpl; lia].
Defined.

(** ** The history file *)

Lemma append_asociativa (a b c : string) : (a +:+ b) +:+ c = a +:+ (b +:+ c).
Proof.
  induction a as [|x a IH]; [reflexivity|].
  rewrite !append_String, IH. reflexivity.
Qed.

Lemma guardar_varias_existente llamadas :
  forall previo,
    guardar_varias (Some previo) llamadas = Some (previo +:+ lineas_csv llamadas).
Proof.
  induction llamadas as [|c resto IH]; intros previo.
  - cbn [guardar_varias foldl lineas_csv]. f_equal. clear.
    induction previo as [|x previo IH]; [reflexivity|].
    rewrite append_String, <- IH. reflexivity.
  - unfold guardar_varias in *. cbn [foldl lineas_csv guardar_resumen_csv].
    rewrite IH, append_asociativa. reflexivity.
Qed.

(** X15: the history file is append-only and gets its header exactly
    once.  Any number of calls on an existing file leave its previous
    content in place and add one row per call, without header; starting
    from a file that does not exist, the result is the header followed by
    one row per call. *)
Theorem history_header_once llamadas :
  (forall previo,
      guardar_varias (Some previo) llamadas = Some (previo +:+ lineas_csv llamadas)) /\
  (llamadas <> [] ->
   guardar_varias None llamadas = Some (CABECERA_CSV +:+ lineas_csv llamadas)).
Proof.
  split; [apply guardar_varias_existente|].
  destruct llamadas as [|c resto]; [congruence|]. intros _.
  unfold guardar_varias. cbn [foldl guardar_resumen_csv lineas_csv].
  fold (guardar_varias (Some (CABECERA_CSV +:+ linea_csv (c.1.1) (c.1.2) (c.2))) resto).
  rewrite guardar_varias_existente, append_asociativa. reflexivity.
Qed.

Lemma history_header_once_witness :
  let ds := [ {| name := "Salón"; power := true; target_temperature := 22.5;
                 set_raises := false |} ] in
  guardar_varias None [ ("2025-01-01 10:00", "3.2", ds); ("2025-01-01 10:10", "3.4", []) ]
  = Some (CABECERA_CSV
          +:+ ("2025-01-01 10:00,3.2,1,0,0,0" +:+ salto)
          +:+ ("2025-01-01 10:10,3.4,0,0,0,0" +:+ salto)).
Proof.
  intros ds.
  rewrite (proj2 (history_header_once _)); [|discriminate].
  vm_compute. reflexivity.
Defined.

Lemma estados_csv_snoc (l : list Device) (d : Device) :
  estados_csv (l ++ [d]) = <[name d := if power d then 1%Z else 0%Z]> (estados_csv l).
Proof. unfold estados_csv. rewrite foldl_app. reflexivity. Qed.

Lemma columna_snoc_eq (l : list Device) (d : Device) :
  columna (l ++ [d]) (name d) = if power d then "1"%string else "0"%string.
Proof.
  unfold columna. rewrite estados_csv_snoc, lookup_insert_eq.
  destruct (power d); reflexivity.
Qed.

Lemma columna_snoc_ne (l : list Device) (d : Device) (n : string) :
  name d <> n -> columna (l ++ [d]) n = columna l n.
Proof.
  intros H. unfold columna. rewrite estados_csv_snoc, lookup_insert_ne; [reflexivity|exact H].
Qed.

Lemma columna_sin_nombre (post : list Device) (n : string) :
  forall l, Forall (fun d => name d <> n) post -> columna (l ++ post) n = columna l n.
Proof.
  induction post as [|d post IH] using rev_ind; intros l H.
  - rewrite app_nil_r. reflexivity.
  - apply Forall_app in H. destruct H as [Hpost Hd].
    apply Forall_cons in Hd. destruct Hd as [Hd _].
    rewrite app_assoc, columna_snoc_ne, IH; [reflexivity | exact Hpost | exact Hd].
Qed.

Lemma columna_dos_valores devices n :
  columna devices n = "0"%string \/ columna devices n = "1"%string.
Proof.
  unfold columna, texto_flag.
  destruct (default 0 (estados_csv devices !! n) =? 0)%Z; auto.
Qed.

(** X16: a column of the row is always ["0"] or ["1"]; it is ["1"]
    exactly when the list holds a unit of that name and the last such
    unit is on.  A name that is not listed gives ["0"], and units of
    other names never influence the column. *)
Theorem history_flag_last_unit_wins devices n :
  (columna devices n = "0"%string \/ columna devices n = "1"%string) /\
  (columna devices n = "1"%string <->
   exists pre d post,
     devices = pre ++ d :: post /\ name d = n /\ power d = true /\
     Forall (fun d' => name d' <> n) post).
Proof.
  split.
  - apply columna_dos_valores.
  - split.
    + induction devices as [|d l IH] using rev_ind.
      * vm_compute. discriminate.
      * destruct (decide (name d = n)) as [Heq|Hne].
        -- subst n. rewrite columna_snoc_eq. intros H.
           exists l, d, []. repeat split; [|constructor].
           destruct (power d); [reflexivity | discriminate].
        -- rewrite (columna_snoc_ne _ _ _ Hne). intros H.
           destruct (IH H) as (pre & d0 & post & -> & Hn & Hp & Hpost).
           exists pre, d0, (post ++ [d]). repeat split; try assumption.
           ++ rewrite <- app_assoc. reflexivity.
           ++ apply Forall_app. split; [exact Hpost | repeat constructor; exact Hne].
    + intros (pre & d & post & -> & Hn & Hp & Hpost).
      change (pre ++ d :: post) with (pre ++ [d] ++ post).
      rewrite app_assoc, (columna_sin_nombre _ _ _ Hpost).
      subst n. rewrite columna_snoc_eq, Hp. reflexivity.
Qed.

Lemma cuenta_app (c : ascii) (a b : string) :
  cuenta c (a +:+ b) = (cuenta c a + cuenta c b)%nat.
Proof.
  induction a as [|x a IH]; [reflexivity|].
  rewrite append_String. cbn [cuenta]. rewrite IH. lia.
Qed.

(** X17: a row has as many separators as the header, five, plus those
    contained in the timestamp and temperature texts (none for the
    formats the script uses), whatever the number and names of the listed
    units: the history keeps six columns. *)
Theorem history_row_has_six_columns fecha temp devices :
  cuenta "," (linea_csv fecha temp devices) =
    (cuenta "," CABECERA_CSV + cuenta "," fecha + cuenta "," temp)%nat /\
  cuenta "," CABECERA_CSV = 5%nat.
Proof.
  split; [|reflexivity].
  assert (Hcol : forall n, cuenta "," (columna devices n) = 0%nat).
  { intros n. destruct (columna_dos_valores devices n) as [->| ->]; reflexivity. }
  unfold linea_csv. rewrite !cuenta_app, !Hcol.
  change (cuenta "," CABECERA_CSV) with 5%nat.
  change (cuenta "," ",") with 1%nat. change (cuenta "," salto) with 0%nat. lia.
Qed.

(** ** From one cycle to the next *)

(** The memory an iteration leaves, by kind of command. *)
Lemma memoria_tras_paso ts temp_ext inv hor reg (estados est' : gmap string Mem) dev :
  let p := procesar_dispositivo ts temp_ext inv hor reg estados dev in
  result p = Ok est' ->
  exists m',
    est' = <[name dev := m']> estados /\
    bloqueo_hasta m' = bloqueo_hasta (mem_en_decision ts estados dev) /\
    ((commands (trace p) = [] /\
      mem_power m' = power dev /\
      mem_target_temperature m' = target_temperature dev) \/
     (en_bloqueo ts (mem_en_decision ts estados dev) = false /\
      commands (trace p) = [DevSet (name dev) props_apagar true] /\
      power dev = true /\
      mem_power m' = false /\
      mem_target_temperature m' = target_temperature dev) \/
     (en_bloqueo ts (mem_en_decision ts estados dev) = false /\
      commands (trace p) = [DevSet (name dev) (props_calentar (objetivo dev)) true] /\
      negb (power dev) || negb (Qeq_bool (target_temperature dev) (objetivo dev)) = true /\
      mem_power m' = true /\
      mem_target_temperature m' = objetivo dev)).
Proof.
  cbv zeta. rewrite comandos_procesar_dispositivo, procesar_dispositivo_eq. cbv zeta.
  destruct (en_bloqueo ts (mem_en_decision ts estados dev)) eqn:Hb.
  - cbn [result trace fst snd]. intros H. injection H as <-.
    exists (mem_en_decision ts estados dev).
    split; [reflexivity|]. split; [reflexivity|]. left. repeat split.
  - cbn [result trace fst snd].
    rewrite comandos_motor_decision, motor_decision_eq.
    unfold efecto_apagar, efecto_calentar.
    assert (Hmp : mem_power (mem_en_decision ts estados dev) = power dev)
      by reflexivity.
    assert (Hmt : mem_target_temperature (mem_en_decision ts estados dev)
                  = target_temperature dev) by reflexivity.
    revert Hmp Hmt. generalize (mem_en_decision ts estados dev). intros mem.
    destruct (Qltb temp_ext UMBRAL_SEGURIDAD_FRIO), inv, hor,
      (Qltb temp_ext UMBRAL_CORTE_VERANO), (stop_mode reg),
      (Qle_bool temp_ext UMBRAL_BUEN_TIEMPO_INVIERNO), (power dev),
      (Qeq_bool (target_temperature dev) (objetivo dev)), (set_raises dev);
      cbn [result trace fst snd andb orb negb]; intros Hmp Hmt H; try discriminate;
      injection H as <-; eexists; (split; [reflexivity|]); (split; [reflexivity|]);
      first [ left; repeat split; first [reflexivity | assumption]
            | right; left; repeat split; first [reflexivity | assumption]
            | right; right; repeat split; first [reflexivity | assumption] ].
Qed.

(** X18: the engine does not take its own commands for manual changes.
    If, at a later cycle, the unit shows the state the previous iteration
    left it in (the state it observed when it issued no command, the
    commanded power and target otherwise), the manual check finds no
    difference: nothing is notified and no lockout is armed. *)
Theorem own_command_not_taken_for_manual ts temp_ext inv hor reg
    (estados est' : gmap string Mem) dev dev2 ts2 temp2 :
  let p := procesar_dispositivo ts temp_ext inv hor reg estados dev in
  result p = Ok est' ->
  name dev2 = name dev ->
  (commands (trace p) = [] /\
   power dev2 = power dev /\
   target_temperature dev2 == target_temperature dev) \/
  (exists props,
      commands (trace p) = [DevSet (name dev) props true] /\
      power dev2 = default (power dev) (set_power props) /\
      target_temperature dev2 ==
        default (target_temperature dev) (set_target_temperature props)) ->
  gestion_bloqueo_manual ts2 temp2 dev2 (recuperar est' dev2) = mret (recuperar est' dev2).
Proof.
  cbv zeta. intros Hres Hname Hobs.
  destruct (memoria_tras_paso ts temp_ext inv hor reg estados est' dev Hres)
    as (m' & -> & _ & Hm).
  assert (Hrec : recuperar (<[name dev := m']> estados) dev2 = m').
  { unfold recuperar. rewrite Hname, lookup_insert_eq. reflexivity. }
  rewrite Hrec, gestion_bloqueo_manual_eq.
  assert (Hc : cambiado m' dev2 = false); [|unfold manual_detectado; rewrite Hc; reflexivity].
  unfold cambiado.
  assert (Hgoal : mem_power m' = power dev2 /\
                  mem_target_temperature m' == target_temperature dev2).
  { destruct Hm as [(Hc0 & Hp & Ht)|[(_ & Hc1 & _ & Hp & Ht)|(_ & Hc2 & _ & Hp & Ht)]];
      destruct Hobs as [(Hc' & Hp' & Ht')|(props & Hc' & Hp' & Ht')];
      rewrite Hc' in *; try discriminate.
    - rewrite Hp, Hp', Ht, Ht'. split; reflexivity.
    - injection Hc1 as ->. cbn in Hp', Ht'. rewrite Hp, Hp', Ht, Ht'. split; reflexivity.
    - injection Hc2 as ->. cbn in Hp', Ht'. rewrite Hp, Hp', Ht, Ht'. split; reflexivity. }
  destruct Hgoal as [-> Ht]. apply Qeq_bool_iff in Ht. rewrite Ht.
  destruct (power dev2); reflexivity.
Qed.

Lemma own_command_not_taken_for_manual_witness :
  let dev := {| name := "Dormitorio"; power := false; target_temperature := 20;
                set_raises := false |} in
  let dev2 := {| name := "Dormitorio"; power := true; target_temperature := 21;
                 set_raises := false |} in
  let reg := {| last_telegram_update_id := 0; stop_mode := false |} in
  let est' : gmap string Mem :=
    {[ "Dormitorio"%string := {| mem_power := true; mem_target_temperature := 21;
                                 bloqueo_hasta := 0 |} ]} in
  gestion_bloqueo_manual 1700000600 18 dev2 (recuperar est' dev2)
  = mret (recuperar est' dev2).
Proof.
  intros dev dev2 reg est'.
  apply (own_command_not_taken_for_manual 1700000000 18 true true reg ∅ est' dev dev2).
  - vm_compute; reflexivity.
  - reflexivity.
  - right. exists (props_calentar 21). repeat split; vm_compute; reflexivity.
Defined.

(** X19: a command that succeeded but is not yet visible on the unit is
    taken for a manual change.  If an iteration issued a command and a
    later cycle still observes the unit in the state seen before the
    command, the manual check fires: it notifies a manual change and arms
    a lockout of [DURACION_BLOQUEO_MANUAL] from that later cycle. *)
Theorem unapplied_command_looks_manual ts temp_ext inv hor reg
    (estados est' : gmap string Mem) dev ts2 temp2 :
  let p := procesar_dispositivo ts temp_ext inv hor reg estados dev in
  result p = Ok est' ->
  commands (trace p) <> [] ->
  ts < ts2 ->
  gestion_bloqueo_manual ts2 temp2 dev (recuperar est' dev) =
  ([Log (LManualDetectado (name dev));
    EnviarTelegram (CambioManual (name dev) (target_temperature dev)) temp2],
   Ok (con_bloqueo (ts2 + DURACION_BLOQUEO_MANUAL) (recuperar est' dev))).
Proof.
  cbv zeta. intros Hres Hcmd Hts.
  destruct (memoria_tras_paso ts temp_ext inv hor reg estados est' dev Hres)
    as (m' & -> & Hbl & Hm).
  rewrite recuperar_insert, gestion_bloqueo_manual_eq.
  assert (Hman : manual_detectado ts2 m' dev = true);
    [|rewrite Hman; reflexivity].
  unfold manual_detectado. apply andb_true_iff.
  destruct Hm as [(Hc0 & _)|[(Hlibre & _ & Hon & Hp & Ht)|(Hlibre & _ & Hdif & Hp & Ht)]];
    [congruence| |].
  - split.
    + unfold cambiado. rewrite Hp, Hon. reflexivity.
    + apply Qltb_lt. rewrite Hbl. apply Qltb_ge in Hlibre. lra.
  - split.
    + unfold cambiado. rewrite Hp, Ht.
      apply orb_true_iff in Hdif. destruct Hdif as [Hd|Hd].
      * apply negb_true_iff in Hd. rewrite Hd. reflexivity.
      * apply negb_true_iff in Hd.
        assert (Hd' : Qeq_bool (objetivo dev) (target_temperature dev) = false).
        { apply not_true_iff_false. intros Ht'. apply Qeq_bool_iff in Ht'.
          symmetry in Ht'. apply Qeq_bool_iff in Ht'. congruence. }
        rewrite Hd'. apply orb_true_r.
    + apply Qltb_lt. rewrite Hbl. apply Qltb_ge in Hlibre. lra.
Qed.

Lemma unapplied_command_looks_manual_witness :
  let dev := {| name := "Salón"; power := true; target_temperature := 20;
                set_raises := false |} in
  let reg := {| last_telegram_update_id := 0; stop_mode := true |} in
  let est' : gmap string Mem :=
    {[ "Salón"%string := {| mem_power := false; mem_target_temperature := 20;
                            bloqueo_hasta := 0 |} ]} in
  result (gestion_bloqueo_manual 1700000600 12 dev (recuperar est' dev)) =
  Ok (con_bloqueo (1700000600 + DURACION_BLOQUEO_MANUAL) (recuperar est' dev)).
Proof.
  intros dev reg est'.
  rewrite (unapplied_command_looks_manual 1700000000 12 true true reg ∅ est' dev
             1700000600 12).
  - reflexivity.
  - vm_compute; reflexivity.
  - vm_compute; discriminate.
  - vm_compute; reflexivity.
Defined.

(** X20: a lockout lasts exactly [DURACION_BLOQUEO_MANUAL] seconds.
    After a cycle at time [ts1] has detected a manual change, a cycle at
    time [ts2] that observes the same state skips the unit as long as
    [ts2 < ts1 + DURACION_BLOQUEO_MANUAL], and from that instant on hands
    it to the decision engine again. *)
Theorem lockout_lasts_one_hour ts1 ts2 temp1 inv hor reg
    (estados : gmap string Mem) dev :
  manual_detectado ts1 (recuperar estados dev) dev = true ->
  exists est1,
    result (procesar_dispositivo ts1 temp1 inv hor reg estados dev) = Ok est1 /\
    (en_bloqueo ts2 (mem_en_decision ts2 est1 dev) = true <->
     ts2 < ts1 + DURACION_BLOQUEO_MANUAL) /\
    (ts1 + DURACION_BLOQUEO_MANUAL <= ts2 ->
     forall temp2 inv2 hor2 reg2,
       commands (trace (procesar_dispositivo ts2 temp2 inv2 hor2 reg2 est1 dev)) =
       commands (trace (motor_decision temp2 inv2 hor2 reg2 dev (objetivo dev)
                          (mem_en_decision ts1 estados dev)))).
Proof.
  intros Hman.
  assert (Hmem : mem_en_decision ts1 estados dev =
                 refrescar dev (con_bloqueo (ts1 + DURACION_BLOQUEO_MANUAL)
                                            (recuperar estados dev)))
    by (unfold mem_en_decision; rewrite Hman; reflexivity).
  assert (Hlock : en_bloqueo ts1 (mem_en_decision ts1 estados dev) = true).
  { rewrite Hmem. apply Qltb_lt. simpl. unfold DURACION_BLOQUEO_MANUAL. lra. }
  exists (<[name dev := mem_en_decision ts1 estados dev]> estados).
  assert (Hmem2 : mem_en_decision ts2
                    (<[name dev := mem_en_decision ts1 estados dev]> estados) dev
                  = mem_en_decision ts1 estados dev).
  { unfold mem_en_decision at 1. rewrite recuperar_insert.
    unfold manual_detectado. rewrite Hmem, cambiado_refrescar. reflexivity. }
  split; [|split].
  - rewrite procesar_dispositivo_eq. cbv zeta. rewrite Hlock. reflexivity.
  - rewrite Hmem2, Hmem. unfold en_bloqueo. rewrite Qltb_lt. reflexivity.
  - intros Hexp temp2 inv2 hor2 reg2.
    rewrite comandos_procesar_dispositivo, Hmem2.
    assert (Hl : en_bloqueo ts2 (mem_en_decision ts1 estados dev) = false)
      by (rewrite Hmem; apply Qltb_ge; exact Hexp).
    rewrite Hl. reflexivity.
Qed.

Lemma lockout_lasts_one_hour_witness :
  let dev := {| name := "Salón"; power := true; target_temperature := 24;
                set_raises := false |} in
  let estados : gmap string Mem :=
    {[ "Salón"%string := {| mem_power := false; mem_target_temperature := 22.5;
                            bloqueo_hasta := 0 |} ]} in
  let reg := {| last_telegram_update_id := 0; stop_mode := false |} in
  exists est1,
    result (procesar_dispositivo 1000 10 true true reg estados dev) = Ok est1 /\
    en_bloqueo 4599 (mem_en_decision 4599 est1 dev) = true /\
    commands (trace (procesar_dispositivo 4600 (-3) true true reg est1 dev)) =
    [DevSet "Salón" props_apagar true].
Proof.
  intros dev estados reg.
  assert (Hman : manual_detectado 1000 (recuperar estados dev) dev = true)
    by (vm_compute; reflexivity).
  destruct (lockout_lasts_one_hour 1000 4599 10 true true reg estados dev Hman)
    as (est1 & Hr & Hiff & _).
  exists est1. split; [exact Hr|]. split.
  - apply Hiff. vm_compute; reflexivity.
  - destruct (lockout_lasts_one_hour 1000 4600 10 true true reg estados dev Hman)
      as (est1' & Hr' & _ & Hfree).
    rewrite Hr in Hr'. injection Hr' as <-.
    rewrite Hfree; [vm_compute; reflexivity | vm_compute; discriminate].
Defined.

(** ** Where the commands of a cycle come from *)

Lemma bucle_comando_origen ts temp_ext inv hor reg devices :
  forall (estados : gmap string Mem) n props ok,
    In (DevSet n props ok)
       (trace (bucle_dispositivos ts temp_ext inv hor reg estados devices)) ->
    exists est0 dev,
      In dev devices /\
      In (DevSet n props ok)
         (trace (procesar_dispositivo ts temp_ext inv hor reg est0 dev)).
Proof.
  induction devices as [|dev rest IH]; intros estados n props ok;
    cbn [bucle_dispositivos].
  - intros [].
  - rewrite bind_trace. intros Hin. apply in_app_or in Hin. destruct Hin as [Hin|Hin].
    + exists estados, dev. split; [left; reflexivity | exact Hin].
    + destruct (result (procesar_dispositivo ts temp_ext inv hor reg estados dev))
        as [est1|]; [|destruct Hin].
      destruct (IH est1 n props ok Hin) as (est0 & dev0 & Hd & Hc).
      exists est0, dev0. split; [right; exact Hd | exact Hc].
Qed.

Lemma comando_en_bucle e n props ok :
  In (DevSet n props ok) (run_safe e) ->
  exists temp_ext devices,
    clima e = Some temp_ext /\
    melcloud e = Some devices /\
    In (DevSet n props ok) (trace (bucle_del_ciclo e temp_ext devices)).
Proof.
  intros Hin. unfold run_safe in Hin.
  destruct (clima e) as [temp_ext|] eqn:Hclima.
  2:{ pose proof (main_shape e) as Hs. rewrite Hclima in Hs. rewrite Hs in Hin.
      simpl in Hin. intuition discriminate. }
  destruct (melcloud e) as [devices|] eqn:Hmel.
  2:{ pose proof (main_shape e) as Hs. rewrite Hclima, Hmel in Hs.
      destruct Hs as [Hr Hc]. rewrite (M_eta (main e)), Hr in Hin.
      apply in_app_or in Hin. destruct Hin as [Hin|Hin].
      - exfalso. exact (callado_no_command _ _ _ _ Hc Hin).
      - simpl in Hin. intuition discriminate. }
  exists temp_ext, devices. split; [reflexivity|]. split; [reflexivity|].
  rewrite (main_partes e temp_ext devices Hclima Hmel) in Hin. cbv zeta in Hin.
  pose proof (proj1 (check_telegram_commands_spec temp_ext devices
                       (en_horario_de (reloj e)) (telegram e)
                       (registro_inicial (registro_json e)) (estados_json e))) as Hc.
  pose proof (aviso_caldera_callado (es_invierno_de (reloj e)) temp_ext) as Ha.
  assert (Hcola : forall t : list Event,
             In (DevSet n props ok)
                ([Log LInicio; Log (LTempExterior temp_ext)]
                   ++ aviso_caldera (es_invierno_de (reloj e)) temp_ext
                   ++ trace (check_telegram_commands temp_ext devices
                               (en_horario_de (reloj e)) (telegram e)
                               (registro_inicial (registro_json e)) (estados_json e))
                   ++ trace (bucle_del_ciclo e temp_ext devices) ++ t) ->
             In (DevSet n props ok) (trace (bucle_del_ciclo e temp_ext devices)) \/
             In (DevSet n props ok) t).
  { intros t H. repeat (apply in_app_or in H; destruct H as [H|H]).
    - simpl in H. intuition discriminate.
    - exfalso. exact (callado_no_command _ _ _ _ Ha H).
    - exfalso. exact (callado_no_command _ _ _ _ Hc H).
    - left. exact H.
    - right. exact H. }
  destruct (result (bucle_del_ciclo e temp_ext devices)) as [est2|].
  - destruct (csv_raises (escrituras e)).
    + apply in_app_or in Hin. destruct Hin as [Hin|Hin].
      * destruct (Hcola _ Hin) as [H|H]; [exact H|].
        exfalso. exact (cola_guardado_sin_comandos _ _ _ _ _ _ _ H).
      * simpl in Hin. intuition discriminate.
    + destruct (Hcola _ Hin) as [H|H]; [exact H|].
      exfalso. exact (cola_guardado_sin_comandos _ _ _ _ _ _ _ H).
  - apply in_app_or in Hin. destruct Hin as [Hin|Hin].
    + destruct (Hcola _ Hin) as [H|H]; [exact H | destruct H].
    + simpl in Hin. intuition discriminate.
Qed.

(** X21: over a whole run, a unit is only ever switched on when the
    weather was read and lies between the safety and the winter-comfort
    thresholds, it is winter and inside active hours, and stop mode, as
    the directives polled in this same cycle left it, is off; the unit
    is one MELCloud listed, it is off or at another target, and the
    command sets heating mode at the unit's objective. *)
Theorem heating_conditions_of_a_cycle e n props ok :
  In (DevSet n props ok) (run_safe e) ->
  set_power props = Some true ->
  exists temp_ext devices dev,
    clima e = Some temp_ext /\
    melcloud e = Some devices /\
    In dev devices /\
    n = name dev /\ props = props_calentar (objetivo dev) /\
    es_invierno_de (reloj e) = true /\
    en_horario_de (reloj e) = true /\
    stop_mode (registro_del_ciclo e) = false /\
    UMBRAL_SEGURIDAD_FRIO <= temp_ext /\ temp_ext <= UMBRAL_BUEN_TIEMPO_INVIERNO /\
    (power dev = false \/ ~ target_temperature dev == objetivo dev).
Proof.
  intros Hin Hon.
  destruct (comando_en_bucle e n props ok Hin) as (temp_ext & devices & Hc & Hm & Hb).
  unfold bucle_del_ciclo in Hb.
  destruct (bucle_comando_origen _ _ _ _ _ _ _ _ _ _ Hb) as (est0 & dev & Hd & Hp).
  destruct (calentar_solo_por_apoyo _ _ _ _ _ _ _ _ _ _ Hp Hon)
    as (H1 & H2 & _ & _ & H5 & H6 & H7 & H8 & H9 & H10).
  exists temp_ext, devices, dev. repeat (split; [assumption|]). assumption.
Qed.

Lemma heating_conditions_of_a_cycle_witness :
  let dev := {| name := "Dormitorio"; power := false; target_temperature := 20;
                set_raises := false |} in
  let e := {| registro_json := {| json_last_telegram_update_id := None;
                                  json_stop_mode := Some true |};
              estados_json := ∅;
              reloj := {| hour := 10; minute := 0; month := 1; weekday := 2;
                          ahora_ts := 1700000000 |};
              clima := Some 18;
              melcloud := Some [dev];
              telegram := PollOk [ {| update_id := 1; text := "/start" |} ];
              escrituras := escrituras_ok |} in
  In (DevSet "Dormitorio" (props_calentar 21) true) (run_safe e) /\
  stop_mode (registro_del_ciclo e) = false.
Proof.
  intros dev e.
  assert (Hin : In (DevSet "Dormitorio" (props_calentar 21) true) (run_safe e))
    by (vm_compute; do 6 right; left; reflexivity).
  destruct (heating_conditions_of_a_cycle e _ _ _ Hin eq_refl)
    as (t & ds & d & _ & _ & _ & _ & _ & _ & _ & Hs & _).
  split; [exact Hin | exact Hs].
Defined.

(** ** A failed poll *)


